(** * Range calendar state: a shallow embedding of
    [packages/@react-stately/calendar/src/useRangeCalendarState.ts]

    The hook is modelled as a state machine.  One render of the hook reads the
    props and the stored state and derives [min], [max], [highlightedRange],
    [validationState], [isSelected] and [isInvalid]; the callbacks it returns
    ([selectDate], [setAnchorDate], ...) are state transformers.  React state
    ([useState], [useControlledState]) and refs ([useRef]) are the fields of
    [State]; a state update followed by the re-render it triggers is one
    transition. *)

From Stdlib Require Import ZArith Bool Lia List String.
Import ListNotations.
Local Open Scope Z_scope.

(** ** The calendar-arithmetic collaborator ([@internationalized/date]) *)

Module Date.

(** Modelled from the spec: the calendar systems of [@internationalized/date]
    (the package is not part of the sources).  The default system is the
    Gregorian one; every other system is named by its identifier. *)
Inductive Calendar : Type :=
| GregorianCalendar
| OtherCalendar (identifier : string).

(** Modelled from the spec: a [CalendarDate] is "a date in a specific calendar
    system".  The era, year, month and day fields of the package are
    abstracted by the day they denote on the common day axis (the Julian day
    number), which is what comparison, day arithmetic and conversion between
    calendar systems go through. *)
Record CalendarDate : Type := mkCalendarDate {
  calendar : Calendar;
  julianDay : Z
}.

(** The time-of-day component ([hour], [minute], [second], [millisecond]). *)
Record Time : Type := mkTime {
  hour : Z;
  minute : Z;
  second : Z;
  millisecond : Z
}.

(** Modelled from the spec: a [DateValue] is a date "optionally carrying a
    time-of-day component": either a pure [CalendarDate] or a date with a
    time (the package's [CalendarDateTime]; a zoned date-time carries an
    [hour] field as well and is covered by the same constructor). *)
Inductive DateValue : Type :=
| DateOnly (d : CalendarDate)
| DateTime (d : CalendarDate) (t : Time).

Coercion DateOnly : CalendarDate >-> DateValue.

(** [toCalendarDate]: the date portion, any time-of-day dropped. *)
Definition toCalendarDate (v : DateValue) : CalendarDate :=
  match v with
  | DateOnly d => d
  | DateTime d _ => d
  end.

(** The time-of-day of a value; present exactly when ['hour' in v]. *)
Definition timeOf (v : DateValue) : option Time :=
  match v with
  | DateOnly _ => None
  | DateTime _ t => Some t
  end.

Definition hasHour (v : DateValue) : bool :=
  match timeOf v with Some _ => true | None => false end.

Definition calendarOf (v : DateValue) : Calendar := calendar (toCalendarDate v).

Definition dayOf (v : DateValue) : Z := julianDay (toCalendarDate v).

Definition timeToMs (t : Time) : Z :=
  hour t * 3600000 + minute t * 60000 + second t * 1000 + millisecond t.

Definition midnight : Time := mkTime 0 0 0 0.

(** Modelled from the spec: [a.compare(b)], negative when [a] is before [b].
    A pure date compares by day; a date with a time compares by day and, on
    the same day, by time-of-day, a pure date counting as midnight. *)
Definition compare (a b : DateValue) : Z :=
  let res := dayOf a - dayOf b in
  match a with
  | DateOnly _ => res
  | DateTime _ t =>
      if res =? 0
      then timeToMs t - timeToMs (match timeOf b with Some u => u | None => midnight end)
      else res
  end.

(** Modelled from the spec: [date.add({days: n})] (and [subtract] for a
    negative [n]) moves a date by whole days within its calendar system. *)
Definition addDays (d : CalendarDate) (n : Z) : CalendarDate :=
  mkCalendarDate (calendar d) (julianDay d + n).

(** Modelled from the spec: [toCalendar(date, calendar)] re-expresses the same
    day in another calendar system. *)
Definition toCalendar (d : CalendarDate) (c : Calendar) : CalendarDate :=
  mkCalendarDate c (julianDay d).

(** Modelled from the spec: [oldValue.set(fields)] replaces the date fields
    of [oldValue] by those of [fields] (already expressed in the calendar
    system of [oldValue]) and keeps its calendar system and time-of-day. *)
Definition set (oldValue : DateValue) (fields : CalendarDate) : DateValue :=
  match oldValue with
  | DateOnly d => DateOnly (mkCalendarDate (calendar d) (julianDay fields))
  | DateTime d t => DateTime (mkCalendarDate (calendar d) (julianDay fields)) t
  end.

(** Modelled from the spec: [isEqualDay(a, b)]. *)
Definition isEqualDay (a b : CalendarDate) : bool := julianDay a =? julianDay b.

(** Modelled from the spec: [maxDate(a, b)] and [minDate(a, b)], "missing
    bound => identity for that side". *)
Definition maxDate (a b : option DateValue) : option DateValue :=
  match a, b with
  | Some x, Some y => if compare x y >=? 0 then Some x else Some y
  | Some x, None => Some x
  | None, _ => b
  end.

Definition minDate (a b : option DateValue) : option DateValue :=
  match a, b with
  | Some x, Some y => if compare x y <=? 0 then Some x else Some y
  | Some x, None => Some x
  | None, _ => b
  end.

(** A duration in calendar units ([DateDuration]). *)
Record DateDuration : Type := mkDuration {
  years : Z;
  months : Z;
  weeks : Z;
  days : Z
}.

End Date.

Import Date.

(** [RangeValue<T>]: a pair of endpoints. *)
Record RangeValue (T : Type) : Type := mkRange {
  start : T;
  end_ : T
}.
Arguments mkRange {T} _ _.
Arguments start {T} _.
Arguments end_ {T} _.

(** [DateRange = RangeValue<DateValue>]. *)
Definition DateRange : Type := RangeValue DateValue.

(** ** The helpers of [./utils] *)

Module Utils.

(** Modelled from the spec: [isInvalid(date, minValue, maxValue)] of
    [./utils] (not part of the sources): the date "falls outside" the
    bounds, a missing bound constraining nothing. *)
Definition isInvalid (date : DateValue) (minValue maxValue : option DateValue) : bool :=
  match minValue with Some m => compare date m <? 0 | None => false end
  || match maxValue with Some m => compare date m >? 0 | None => false end.

(** Modelled from the spec: [constrainValue(date, minValue, maxValue)] of
    [./utils] (not part of the sources): "clamp [candidate] into
    [[effectiveMin, effectiveMax]] (missing bound => identity for that
    side)", on calendar dates: raise to the lower bound, then lower to the
    upper bound. *)
Definition constrainValue (date : CalendarDate) (minValue maxValue : option DateValue)
  : CalendarDate :=
  let date :=
    match minValue with
    | Some m => if compare date (toCalendarDate m) >=? 0 then date else toCalendarDate m
    | None => date
    end in
  match maxValue with
  | Some m => if compare date (toCalendarDate m) <=? 0 then date else toCalendarDate m
  | None => date
  end.

(** The backward walk of [previousAvailableDate]: [None] when the fuel runs
    out, [Some r] when the walk ends with result [r]. *)
Fixpoint snapBack (fuel : nat) (date : CalendarDate) (minValue : DateValue)
    (isDateUnavailable : DateValue -> bool) : option (option CalendarDate) :=
  match fuel with
  | O => None
  | S fuel' =>
      if (compare date minValue >=? 0) && isDateUnavailable date
      then snapBack fuel' (addDays date (-1)) minValue isDateUnavailable
      else Some (if compare date minValue >=? 0 then Some date else None)
  end.

(** Days the backward walk can take before it passes [minValue]. *)
Definition snapFuel (date : CalendarDate) (minValue : DateValue) : nat :=
  S (Z.to_nat (dayOf date - dayOf minValue + 1)).

(** Modelled from the spec: [previousAvailableDate(date, minValue,
    isDateUnavailable)] of [./utils] (not part of the sources): "if the
    clamped candidate is unavailable, move it toward the start of the visible
    window, date by date, until an available date is found or the window
    start is passed; if none found, abort"; without a predicate every date
    is available.  A candidate that already lies before the window start has
    passed it.  The result is [None] when the pick is aborted. *)
Definition previousAvailableDate (date : CalendarDate) (minValue : DateValue)
    (isDateUnavailable : option (DateValue -> bool)) : option CalendarDate :=
  match isDateUnavailable with
  | None => Some date
  | Some unavailable =>
      match snapBack (snapFuel date minValue) date minValue unavailable with
      | Some r => r
      | None => None
      end
  end.

End Utils.

(** ** The calendar grid state ([useCalendarState], external) *)

Module Grid.

(** The part of [CalendarState] the range calendar reads: the visible
    window, the focus cursor and the per-cell predicates.  The predicates
    are taken as given: they belong to the single-date grid. *)
Record CalendarState : Type := mkCalendarState {
  visibleRange : RangeValue CalendarDate;
  focusedDate : CalendarDate;
  isCellUnavailable : CalendarDate -> bool;
  isCellDisabled : CalendarDate -> bool;
  isInvalid : CalendarDate -> bool
}.

(** Modelled from the spec: [calendar.setFocusedDate(date)] "moves the
    grid's focus cursor to [date]". *)
Definition setFocusedDate (c : CalendarState) (date : CalendarDate) : CalendarState :=
  mkCalendarState (visibleRange c) date (isCellUnavailable c) (isCellDisabled c) (isInvalid c).

End Grid.

(** ** The range calendar *)

Inductive ValidationState : Type := valid | invalid.

Inductive Alignment : Type := center | alignStart.

(** The options of [useRangeCalendarState] that the state logic reads. *)
Record Props : Type := mkProps {
  minValue : option DateValue;
  maxValue : option DateValue;
  isDateUnavailable : option (DateValue -> bool);
  allowsNonContiguousRanges : bool;
  isReadOnly : bool;
  validationStateProp : option ValidationState;
  visibleDuration : DateDuration;
  locale : string
}.

(** What the hook stores between renders: the committed value (the controlled
    value store, in its uncontrolled mode), the anchor, the available range
    (state and ref), the visible range seen by the last render, the drag flag,
    and the grid state it composes with. *)
Record State : Type := mkState {
  value : option DateRange;
  anchorDate : option CalendarDate;
  availableRangeRef : option (RangeValue (option CalendarDate));
  availableRange : option (RangeValue (option CalendarDate));
  lastVisibleRange : RangeValue CalendarDate;
  isDragging : bool;
  calendar : Grid.CalendarState
}.

(** Modelled from the spec: [setValue] of the controlled value store
    ([useControlledState], not part of the sources) stores the committed
    range. *)
Definition setValue (st : State) (v : DateRange) : State :=
  mkState (Some v) (anchorDate st) (availableRangeRef st) (availableRange st)
          (lastVisibleRange st) (isDragging st) (calendar st).

Definition setAnchorDateState (st : State) (d : option CalendarDate) : State :=
  mkState (value st) d (availableRangeRef st) (availableRange st)
          (lastVisibleRange st) (isDragging st) (calendar st).

(** [availableRangeRef.current = r; setAvailableRange(r)]. *)
Definition setAvailableRange (st : State) (r : option (RangeValue (option CalendarDate))) : State :=
  mkState (value st) (anchorDate st) r r
          (lastVisibleRange st) (isDragging st) (calendar st).

Definition setLastVisibleRange (st : State) (r : RangeValue CalendarDate) : State :=
  mkState (value st) (anchorDate st) (availableRangeRef st) (availableRange st)
          r (isDragging st) (calendar st).

Definition setDragging (st : State) (b : bool) : State :=
  mkState (value st) (anchorDate st) (availableRangeRef st) (availableRange st)
          (lastVisibleRange st) b (calendar st).

Definition setCalendar (st : State) (c : Grid.CalendarState) : State :=
  mkState (value st) (anchorDate st) (availableRangeRef st) (availableRange st)
          (lastVisibleRange st) (isDragging st) c.

(** [makeRange(start, end)]. *)
Definition makeRange (start_ end' : option DateValue) : option (RangeValue CalendarDate) :=
  match start_, end' with
  | Some s, Some e =>
      if compare e s <? 0
      then Some (mkRange (toCalendarDate e) (toCalendarDate s))
      else Some (mkRange (toCalendarDate s) (toCalendarDate e))
  | _, _ => None
  end.

(** [convertValue(newValue, oldValue)]. *)
Definition convertValue (newValue : CalendarDate) (oldValue : option DateValue) : DateValue :=
  let newValue :=
    toCalendar newValue
      (match oldValue with Some o => calendarOf o | None => GregorianCalendar end) in
  match oldValue with
  | Some o => if hasHour o then set o newValue else DateOnly newValue
  | None => DateOnly newValue
  end.

(** The [while] loop of [nextUnavailableDate]: [Some nextDate] is the date the
    loop stops at, [None] means the fuel ran out first. *)
Fixpoint scanLoop (fuel : nat) (state : Grid.CalendarState) (dir : Z) (nextDate : CalendarDate)
  : option CalendarDate :=
  match fuel with
  | O => None
  | S fuel' =>
      if (if dir <? 0
          then compare nextDate (start (Grid.visibleRange state)) >=? 0
          else compare nextDate (end_ (Grid.visibleRange state)) <=? 0)
         && negb (Grid.isCellUnavailable state nextDate)
      then scanLoop fuel' state dir (addDays nextDate dir)
      else Some nextDate
  end.

(** [nextUnavailableDate(anchorDate, state, dir)] run with a bounded number of
    loop iterations: [None] when the bound is hit, [Some r] when the function
    returns [r] ([r = None] being the source's [null]). *)
Definition nextUnavailableDateFuel (fuel : nat) (anchorDate : CalendarDate)
    (state : Grid.CalendarState) (dir : Z) : option (option CalendarDate) :=
  match scanLoop fuel state dir (addDays anchorDate dir) with
  | None => None
  | Some nextDate =>
      Some (if Grid.isCellUnavailable state nextDate
            then Some (addDays nextDate (- dir))
            else None)
  end.

(** Iterations that suffice for a scan in direction [dir]: the days between
    the anchor and the window edge the scan walks towards, plus one. *)
Definition scanFuel (anchorDate : CalendarDate) (state : Grid.CalendarState) (dir : Z) : nat :=
  S (Z.to_nat (if dir <? 0
               then julianDay anchorDate - julianDay (start (Grid.visibleRange state))
               else julianDay (end_ (Grid.visibleRange state)) - julianDay anchorDate)).

(** [nextUnavailableDate(anchorDate, state, dir)], called with [dir = -1] and
    [dir = 1].  For every [dir] other than zero the loop stops within
    [scanFuel] iterations ([nextUnavailableDate_stop]), so the bound is never
    what ends the scan. *)
Definition nextUnavailableDate (anchorDate : CalendarDate) (state : Grid.CalendarState) (dir : Z)
  : option CalendarDate :=
  match nextUnavailableDateFuel (scanFuel anchorDate state dir) anchorDate state dir with
  | Some r => r
  | None => None
  end.

(** [range?.start] and [range?.end] on a possibly absent range. *)
Definition optStart (r : option (RangeValue (option CalendarDate))) : option DateValue :=
  match r with
  | Some range => option_map DateOnly (start range)
  | None => None
  end.

Definition optEnd (r : option (RangeValue (option CalendarDate))) : option DateValue :=
  match r with
  | Some range => option_map DateOnly (end_ range)
  | None => None
  end.

(** [min] and [max] of one render: the caller's bounds tightened by the
    stored available range. *)
Definition min (props : Props) (st : State) : option DateValue :=
  maxDate (minValue props) (optStart (availableRange st)).

Definition max (props : Props) (st : State) : option DateValue :=
  minDate (maxValue props) (optEnd (availableRange st)).

(** [updateAvailableRange(date)]. *)
Definition updateAvailableRange (props : Props) (st : State) (date : option CalendarDate) : State :=
  match date, isDateUnavailable props, allowsNonContiguousRanges props with
  | Some d, Some _, false =>
      setAvailableRange st
        (Some (mkRange (nextUnavailableDate d (calendar st) (-1))
                       (nextUnavailableDate d (calendar st) 1)))
  | _, _, _ => setAvailableRange st None
  end.

(** The render-time check "if the visible range changes, we need to update the
    available range". *)
Definition syncVisibleRange (props : Props) (st : State) : State :=
  let visible := Grid.visibleRange (calendar st) in
  if negb (isEqualDay (start visible) (start (lastVisibleRange st)))
     || negb (isEqualDay (end_ visible) (end_ (lastVisibleRange st)))
  then setLastVisibleRange (updateAvailableRange props st (anchorDate st)) visible
  else st.

(** [setAnchorDate(date)]. *)
Definition setAnchorDate (props : Props) (st : State) (date : option CalendarDate) : State :=
  match date with
  | Some d => updateAvailableRange props (setAnchorDateState st (Some d)) (Some d)
  | None => updateAvailableRange props (setAnchorDateState st None) None
  end.

(** [highlightedRange]. *)
Definition highlightedRange (st : State) : option (RangeValue CalendarDate) :=
  match anchorDate st with
  | Some a => makeRange (Some (DateOnly a)) (Some (DateOnly (Grid.focusedDate (calendar st))))
  | None =>
      match value st with
      | Some v => makeRange (Some (start v)) (Some (end_ v))
      | None => None
      end
  end.

(** The tail of [selectDate], once the pick has been constrained to [date]:
    the first pick sets the anchor, the second commits the range.
    [makeRange] returns [null] only for a missing argument, which cannot
    happen here (see [makeRange_dates]); that branch leaves the state as it
    is. *)
Definition selectConstrained (props : Props) (st : State) (date : CalendarDate) : State :=
  match anchorDate st with
  | None => setAnchorDate props st (Some date)
  | Some anchor =>
      match makeRange (Some (DateOnly anchor)) (Some (DateOnly date)) with
      | Some range =>
          setAnchorDate props
            (setValue st
               (mkRange (convertValue (start range) (option_map start (value st)))
                        (convertValue (end_ range) (option_map end_ (value st)))))
            None
      | None => st
      end
  end.

(** [selectDate(date)]. *)
Definition selectDate (props : Props) (st : State) (date : CalendarDate) : State :=
  if isReadOnly props then st
  else
    let date := Utils.constrainValue date (min props st) (max props st) in
    match Utils.previousAvailableDate date
            (DateOnly (start (Grid.visibleRange (calendar st))))
            (isDateUnavailable props) with
    | None => st
    | Some date => selectConstrained props st date
    end.

(** [isInvalidSelection]. *)
Definition isInvalidSelection (props : Props) (st : State) : bool :=
  match value st, anchorDate st with
  | Some v, None =>
      match isDateUnavailable props with
      | Some unavailable =>
          if unavailable (start v) || unavailable (end_ v) then true
          else Utils.isInvalid (start v) (minValue props) (maxValue props)
               || Utils.isInvalid (end_ v) (minValue props) (maxValue props)
      | None =>
          Utils.isInvalid (start v) (minValue props) (maxValue props)
          || Utils.isInvalid (end_ v) (minValue props) (maxValue props)
      end
  | _, _ => false
  end.

(** [validationState]. *)
Definition validationState (props : Props) (st : State) : option ValidationState :=
  match validationStateProp props with
  | Some v => Some v
  | None => if isInvalidSelection props st then Some invalid else None
  end.

(** [selectFocusedDate()]. *)
Definition selectFocusedDate (props : Props) (st : State) : State :=
  selectDate props st (Grid.focusedDate (calendar st)).

(** [highlightDate(date)]. *)
Definition highlightDate (st : State) (date : CalendarDate) : State :=
  match anchorDate st with
  | Some _ => setCalendar st (Grid.setFocusedDate (calendar st) date)
  | None => st
  end.

(** [isSelected(date)]. *)
Definition isSelected (st : State) (date : CalendarDate) : bool :=
  match highlightedRange st with
  | Some r =>
      (compare date (start r) >=? 0) && (compare date (end_ r) <=? 0)
      && negb (Grid.isCellDisabled (calendar st) date)
      && negb (Grid.isCellUnavailable (calendar st) date)
  | None => false
  end.

(** [isInvalid(date)]. *)
Definition isInvalid (st : State) (date : CalendarDate) : bool :=
  Grid.isInvalid (calendar st) date
  || Utils.isInvalid date (optStart (availableRangeRef st)) (optEnd (availableRangeRef st)).

(** The window alignment computed when the state is built.  [alignCenter]
    (of [./utils]) and the addition of a calendar duration (of
    [@internationalized/date]) are not part of the sources and are taken as
    given. *)
Section Alignment.

Variable alignCenter :
  CalendarDate -> DateDuration -> string -> option DateValue -> option DateValue -> CalendarDate.
Variable add : CalendarDate -> DateDuration -> CalendarDate.

(** Last day of the window obtained by centering on the value's start. *)
Definition centeredWindowEnd (props : Props) (v : DateRange) : CalendarDate :=
  let start_ :=
    alignCenter (toCalendarDate (start v)) (visibleDuration props) (locale props)
                (minValue props) (maxValue props) in
  addDays (add start_ (visibleDuration props)) (-1).

Definition alignment (props : Props) (value_ : option DateRange) : Alignment :=
  match value_ with
  | Some v =>
      if compare (end_ v) (DateOnly (centeredWindowEnd props v)) >? 0
      then alignStart
      else center
  | None => center
  end.

End Alignment.

(** ** Events *)

(** What can happen to the hook between two renders: a call of one of the
    functions it exposes, or a change of the grid state it composes with
    (paging, focus movement). *)
Inductive Event : Type :=
| SelectDate (date : CalendarDate)
| SelectFocusedDate
| HighlightDate (date : CalendarDate)
| SetAnchorDate (date : option CalendarDate)
| SetValue (v : DateRange)
| SetDragging (b : bool)
| GridChange (c : Grid.CalendarState).

Definition handle (props : Props) (st : State) (ev : Event) : State :=
  match ev with
  | SelectDate d => selectDate props st d
  | SelectFocusedDate => selectFocusedDate props st
  | HighlightDate d => highlightDate st d
  | SetAnchorDate d => setAnchorDate props st d
  | SetValue v => setValue st v
  | SetDragging b => setDragging st b
  | GridChange c => setCalendar st c
  end.

(** One event followed by the re-render it causes. *)
Definition step (props : Props) (st : State) (ev : Event) : State :=
  syncVisibleRange props (handle props st ev).

Definition run (props : Props) (st : State) (evs : list Event) : State :=
  fold_left (step props) evs st.

(** The state of the first render: nothing selected, no anchor, no available
    range. *)
Definition initialState (defaultValue : option DateRange) (c : Grid.CalendarState) : State :=
  mkState defaultValue None None None (Grid.visibleRange c) false c.

(** ** Concrete dates and configurations used by the examples *)

(** Day [n] of January 2024 in the Gregorian calendar (1 January 2024 is
    Julian day 2460311). *)
Definition jan (n : Z) : CalendarDate := mkCalendarDate GregorianCalendar (2460310 + n).

Definition january : RangeValue CalendarDate := mkRange (jan 1) (jan 31).

(** A grid showing the window [visible] with the given unavailable days. *)
Definition gridShowing (visible : RangeValue CalendarDate) (unavailable : DateValue -> bool)
  : Grid.CalendarState :=
  Grid.mkCalendarState visible (start visible) (fun d => unavailable (DateOnly d))
                       (fun _ => false) (fun _ => false).

Definition januaryGrid (unavailable : DateValue -> bool) : Grid.CalendarState :=
  gridShowing january unavailable.

Definition onDay (n : Z) : DateValue -> bool := fun v => dayOf v =? julianDay (jan n).

Definition monthDuration : DateDuration := mkDuration 0 1 0 0.

(** Options with the caller's bounds on January 2024. *)
Definition januaryProps (unavailable : option (DateValue -> bool)) (readOnly : bool)
    (flag : option ValidationState) : Props :=
  mkProps (Some (DateOnly (jan 1))) (Some (DateOnly (jan 31))) unavailable false readOnly flag
          monthDuration "en-US".

(** Options without bounds of the caller's. *)
Definition unboundedProps (unavailable : option (DateValue -> bool)) : Props :=
  mkProps None None unavailable false false None monthDuration "en-US".

(** A state in which nothing has been picked yet. *)
Definition idle (previous : option DateRange) (c : Grid.CalendarState) : State :=
  initialState previous c.

(** A window that lies after the anchor used in the scan example. *)
Definition midJanuary : RangeValue CalendarDate := mkRange (jan 10) (jan 20).

Definition nineOClock : Time := mkTime 9 0 0 0.

Definition persian : Calendar := OtherCalendar "persian".

(** A previously committed value whose start carries a time-of-day in a
    non-Gregorian calendar and whose end is a pure Gregorian date. *)
Definition timedValue : DateRange :=
  mkRange (DateTime (mkCalendarDate persian (julianDay (jan 1))) nineOClock)
          (DateOnly (jan 5)).

(** A stand-in for [alignCenter]: the window starts fifteen days before the
    date; and for the addition of the visible duration: thirty-one days. *)
Definition centerOn (d : CalendarDate) (_ : DateDuration) (_ : string)
    (_ _ : option DateValue) : CalendarDate := addDays d (-15).

Definition addMonth (d : CalendarDate) (_ : DateDuration) : CalendarDate := addDays d 31.

(** The state after a first pick of [a] from the idle state. *)
Definition pickedOnce (props : Props) (previous : option DateRange)
    (c : Grid.CalendarState) (a : CalendarDate) : State :=
  selectDate props (idle previous c) a.

(** Options that allow non-contiguous ranges, with the caller's bounds from
    day [firstDay] of January to 31 January. *)
Definition nonContiguousProps (firstDay : Z) (unavailable : option (DateValue -> bool))
  : Props :=
  mkProps (Some (DateOnly (jan firstDay))) (Some (DateOnly (jan 31))) unavailable
          true false None monthDuration "en-US".

(** ** The claim's wording of the directional scan *)

(** The scan as the specification words it: the walk goes on "while the date
    remains inside the visible window and is available". *)
Definition insideWindow (state : Grid.CalendarState) (d : CalendarDate) : bool :=
  (compare d (start (Grid.visibleRange state)) >=? 0)
  && (compare d (end_ (Grid.visibleRange state)) <=? 0).

Fixpoint scanLoopByWords (fuel : nat) (state : Grid.CalendarState) (dir : Z)
    (nextDate : CalendarDate) : option CalendarDate :=
  match fuel with
  | O => None
  | S fuel' =>
      if insideWindow state nextDate && negb (Grid.isCellUnavailable state nextDate)
      then scanLoopByWords fuel' state dir (addDays nextDate dir)
      else Some nextDate
  end.

Definition nextUnavailableDateByWords (anchorDate : CalendarDate)
    (state : Grid.CalendarState) (dir : Z) : option CalendarDate :=
  match scanLoopByWords
          (S (Z.to_nat (julianDay (end_ (Grid.visibleRange state))
                        - julianDay (start (Grid.visibleRange state)) + 1)))
          state dir (addDays anchorDate dir) with
  | Some nextDate =>
      if Grid.isCellUnavailable state nextDate
      then Some (addDays nextDate (- dir))
      else None
  | None => None
  end.

(** The loop condition of [nextUnavailableDate]: the date has not passed the
    window edge that lies in direction [dir], and it is available. *)
Definition notPastEdge (state : Grid.CalendarState) (dir : Z) (d : CalendarDate) : bool :=
  if dir <? 0
  then compare d (start (Grid.visibleRange state)) >=? 0
  else compare d (end_ (Grid.visibleRange state)) <=? 0.

Definition scanGuard (state : Grid.CalendarState) (dir : Z) (d : CalendarDate) : bool :=
  notPastEdge state dir d && negb (Grid.isCellUnavailable state d).

(** ** Vocabulary of the statements *)

(** Distance, in days, to the window edge the scan walks towards. *)
Definition toEdge (state : Grid.CalendarState) (dir : Z) (d : CalendarDate) : Z :=
  if dir <? 0
  then julianDay d - julianDay (start (Grid.visibleRange state)) + 1
  else julianDay (end_ (Grid.visibleRange state)) - julianDay d + 1.

(** The range a second pick commits, given the anchor and the constrained
    pick. *)
Definition committedRange (st : State) (anchor date : CalendarDate) : DateRange :=
  let range := if julianDay date <? julianDay anchor
               then mkRange date anchor else mkRange anchor date in
  mkRange (convertValue (start range) (option_map start (value st)))
          (convertValue (end_ range) (option_map end_ (value st))).

(** A day is not before, or not after, a possibly absent bound; a missing
    bound constrains nothing.  Bounds are compared by calendar day. *)
Definition notBefore (bound : option DateValue) (day : Z) : Prop :=
  match bound with
  | Some lo => dayOf lo <= day
  | None => True
  end.

Definition notAfter (bound : option DateValue) (day : Z) : Prop :=
  match bound with
  | Some hi => day <= dayOf hi
  | None => True
  end.


(** The availability snap of [selectDate] keeps the date: there is no
    unavailability predicate, or the date is available and not before the
    start of the visible window. *)
Definition keptBySnap (props : Props) (st : State) (d : CalendarDate) : Prop :=
  match isDateUnavailable props with
  | Some unavailable =>
      unavailable (DateOnly d) = false
      /\ julianDay (start (Grid.visibleRange (calendar st))) <= julianDay d
  | None => True
  end.

(** The invariant of the stored available range: the ref and the state
    agree, and a range is stored only while an anchor is set, an
    unavailability predicate is supplied and ranges have to be contiguous. *)
Definition rangeInvariant (props : Props) (st : State) : Prop :=
  availableRangeRef st = availableRange st
  /\ (availableRange st <> None ->
      anchorDate st <> None
      /\ isDateUnavailable props <> None
      /\ allowsNonContiguousRanges props = false).

(** Two date values agree in calendar system and time-of-day. *)
Definition sameCalendarAndTime (v w : DateValue) : Prop :=
  calendarOf v = calendarOf w /\ timeOf v = timeOf w.

(** A pure date of the Gregorian calendar. *)
Definition gregorianDate (v : DateValue) : Prop :=
  calendarOf v = GregorianCalendar /\ timeOf v = None.

(** The event is a direct call of [setValue]. *)
Definition isSetValue (ev : Event) : bool :=
  match ev with
  | SetValue _ => true
  | _ => false
  end.

(** A state with the anchor on [a], reached by [setAnchorDate] from the
    first render. *)
Definition anchoredAt (props : Props) (previous : option DateRange)
    (c : Grid.CalendarState) (a : CalendarDate) : State :=
  setAnchorDate props (initialState previous c) (Some a).

(** The grid [c] after paging to the window [visible]. *)
Definition pagedTo (c : Grid.CalendarState) (visible : RangeValue CalendarDate)
  : Grid.CalendarState :=
  Grid.mkCalendarState visible (start visible) (Grid.isCellUnavailable c)
                       (Grid.isCellDisabled c) (Grid.isInvalid c).

(** The window of February 2024, written in days counted from January. *)
Definition february : RangeValue CalendarDate := mkRange (jan 32) (jan 60).

(** * Properties *)

(** ** Day arithmetic *)

Lemma addDays_addDays (d : CalendarDate) (a b : Z) :
  addDays (addDays d a) b = addDays d (a + b).
Proof. unfold addDays; cbn. f_equal. lia. Qed.

Lemma addDays_zero (d : CalendarDate) : addDays d 0 = d.
Proof. destruct d as [c j]. unfold addDays; cbn. f_equal. lia. Qed.

Lemma julianDay_addDays (d : CalendarDate) (n : Z) :
  julianDay (addDays d n) = julianDay d + n.
Proof. reflexivity. Qed.

Lemma compare_date (d : CalendarDate) (v : DateValue) :
  compare (DateOnly d) v = julianDay d - dayOf v.
Proof. reflexivity. Qed.

(** ** The directional scan *)

Lemma scanLoop_unfold (fuel : nat) (state : Grid.CalendarState) (dir : Z) (d : CalendarDate) :
  scanLoop (S fuel) state dir d =
  if scanGuard state dir d then scanLoop fuel state dir (addDays d dir) else Some d.
Proof. reflexivity. Qed.

(** Where the loop stops: the first date of the walk that fails the loop
    condition. *)
Lemma scanLoop_stop (state : Grid.CalendarState) (dir : Z) (fuel : nat) :
  forall d stop,
    scanLoop fuel state dir d = Some stop ->
    exists k : nat,
      stop = addDays d (Z.of_nat k * dir)
      /\ (forall j : nat, (j < k)%nat -> scanGuard state dir (addDays d (Z.of_nat j * dir)) = true)
      /\ scanGuard state dir stop = false.
Proof.
  induction fuel as [|fuel IH]; intros d stop H; [discriminate|].
  rewrite scanLoop_unfold in H.
  destruct (scanGuard state dir d) eqn:G.
  - apply IH in H as (k & Hstop & Hwalk & Hend).
    exists (S k). repeat split.
    + rewrite Hstop, addDays_addDays. f_equal. lia.
    + intros [|j] Hj.
      * cbn. rewrite addDays_zero. exact G.
      * specialize (Hwalk j ltac:(lia)).
        rewrite addDays_addDays in Hwalk.
        replace (Z.of_nat (S j) * dir) with (dir + Z.of_nat j * dir) by lia.
        exact Hwalk.
    + exact Hend.
  - injection H as <-. exists 0%nat. repeat split.
    + cbn. now rewrite addDays_zero.
    + intros j Hj. lia.
    + exact G.
Qed.

(** The loop terminates: a scan in a direction other than zero stops within
    the distance to the edge. *)
Lemma scanLoop_terminates (state : Grid.CalendarState) (dir : Z) (fuel : nat) :
  dir <> 0 ->
  forall d,
    (Z.to_nat (toEdge state dir d) < fuel)%nat ->
    exists stop, scanLoop fuel state dir d = Some stop.
Proof.
  intros Hdir. induction fuel as [|fuel IH]; intros d Hfuel; [lia|].
  rewrite scanLoop_unfold.
  destruct (scanGuard state dir d) eqn:G; [|eauto].
  apply IH.
  unfold scanGuard, notPastEdge in G. apply andb_true_iff in G as [G _].
  unfold toEdge in *. rewrite julianDay_addDays.
  destruct (dir <? 0) eqn:Hneg.
  - apply Z.ltb_lt in Hneg. rewrite compare_date in G. apply Z.geb_le in G.
    unfold dayOf in G; cbn in G. lia.
  - apply Z.ltb_ge in Hneg. rewrite compare_date in G. apply Z.leb_le in G.
    unfold dayOf in G; cbn in G. lia.
Qed.

Lemma scanLoop_more_fuel (state : Grid.CalendarState) (dir : Z) (fuel : nat) :
  forall fuel' d stop,
    scanLoop fuel state dir d = Some stop ->
    (fuel <= fuel')%nat ->
    scanLoop fuel' state dir d = Some stop.
Proof.
  induction fuel as [|fuel IH]; intros fuel' d stop H Hle; [discriminate|].
  destruct fuel' as [|fuel']; [lia|].
  rewrite scanLoop_unfold in *.
  destruct (scanGuard state dir d); [|exact H].
  apply IH; [exact H | lia].
Qed.

Lemma scanFuel_enough (anchorDate : CalendarDate) (state : Grid.CalendarState) (dir : Z) :
  dir <> 0 ->
  (Z.to_nat (toEdge state dir (addDays anchorDate dir)) < scanFuel anchorDate state dir)%nat.
Proof.
  intros Hdir. unfold toEdge, scanFuel. rewrite julianDay_addDays.
  destruct (dir <? 0) eqn:Hneg.
  - apply Z.ltb_lt in Hneg. lia.
  - apply Z.ltb_ge in Hneg. lia.
Qed.

(** The scan returns, and what it returns, for every direction other than
    zero. *)
Lemma nextUnavailableDate_stop (anchorDate : CalendarDate) (state : Grid.CalendarState) (dir : Z) :
  dir <> 0 ->
  exists k : Z,
    1 <= k
    /\ (forall j, 1 <= j < k -> scanGuard state dir (addDays anchorDate (j * dir)) = true)
    /\ scanGuard state dir (addDays anchorDate (k * dir)) = false
    /\ nextUnavailableDate anchorDate state dir =
       (if Grid.isCellUnavailable state (addDays anchorDate (k * dir))
        then Some (addDays anchorDate ((k - 1) * dir))
        else None)
    /\ (forall fuel, (scanFuel anchorDate state dir <= fuel)%nat ->
          nextUnavailableDateFuel fuel anchorDate state dir
          = Some (nextUnavailableDate anchorDate state dir)).
Proof.
  intros Hdir.
  destruct (scanLoop_terminates state dir (scanFuel anchorDate state dir) Hdir
              (addDays anchorDate dir) (scanFuel_enough anchorDate state dir Hdir))
    as [stop Hrun].
  destruct (scanLoop_stop _ _ _ _ _ Hrun) as (n & Hstop & Hwalk & Hend).
  rewrite addDays_addDays in Hstop.
  exists (Z.of_nat n + 1). repeat split.
  - lia.
  - intros j Hj. specialize (Hwalk (Z.to_nat (j - 1)) ltac:(lia)).
    rewrite addDays_addDays, Z2Nat.id in Hwalk by lia.
    replace (dir + (j - 1) * dir) with (j * dir) in Hwalk by ring.
    exact Hwalk.
  - replace ((Z.of_nat n + 1) * dir) with (dir + Z.of_nat n * dir) by ring.
    rewrite <- Hstop. exact Hend.
  - unfold nextUnavailableDate, nextUnavailableDateFuel. rewrite Hrun.
    replace ((Z.of_nat n + 1) * dir) with (dir + Z.of_nat n * dir) by ring.
    rewrite <- Hstop.
    destruct (Grid.isCellUnavailable state stop); [|reflexivity].
    rewrite Hstop, addDays_addDays. do 2 f_equal. ring.
  - intros fuel Hfuel.
    unfold nextUnavailableDate, nextUnavailableDateFuel.
    rewrite Hrun, (scanLoop_more_fuel _ _ _ _ _ _ Hrun Hfuel). reflexivity.
Qed.

Lemma scanGuard_false (state : Grid.CalendarState) (dir : Z) (d : CalendarDate) :
  scanGuard state dir d = false ->
  notPastEdge state dir d = false \/ Grid.isCellUnavailable state d = true.
Proof.
  unfold scanGuard. intros H. apply andb_false_iff in H as [H|H]; [now left|right].
  now apply negb_false_iff in H.
Qed.

Lemma scanGuard_true (state : Grid.CalendarState) (dir : Z) (d : CalendarDate) :
  scanGuard state dir d = true ->
  notPastEdge state dir d = true /\ Grid.isCellUnavailable state d = false.
Proof.
  unfold scanGuard. intros H. apply andb_true_iff in H as [H1 H2].
  split; [exact H1 | now apply negb_true_iff in H2].
Qed.

(** From an anchor inside the window, a date that has not passed the edge
    ahead is inside the window. *)
Lemma insideWindow_walk (state : Grid.CalendarState) (dir j : Z) (anchorDate : CalendarDate) :
  dir = 1 \/ dir = -1 ->
  1 <= j ->
  insideWindow state anchorDate = true ->
  notPastEdge state dir (addDays anchorDate (j * dir)) = true ->
  insideWindow state (addDays anchorDate (j * dir)) = true.
Proof.
  unfold insideWindow, notPastEdge. intros Hdir Hj Hin Hedge.
  apply andb_true_iff in Hin as [Hlo Hhi].
  rewrite !compare_date in *. rewrite julianDay_addDays in *.
  unfold dayOf in *; cbn [toCalendarDate] in *.
  apply Z.geb_le in Hlo. apply Z.leb_le in Hhi.
  apply andb_true_iff.
  destruct Hdir as [-> | ->]; cbn [Z.ltb Z.compare] in Hedge.
  - apply Z.leb_le in Hedge. split; [apply Z.geb_le | apply Z.leb_le]; lia.
  - apply Z.geb_le in Hedge. split; [apply Z.geb_le | apply Z.leb_le]; lia.
Qed.

(** C2 (as amended): for every anchor date, visible window and
    unavailability predicate, the directional scan [nextUnavailableDate]
    returns (with the loop bound [scanFuel], and with any larger one) after
    walking one day at a time from [anchor + d] in direction [d] while the
    date has not passed the window edge lying in direction [d] and is
    available -- from an anchor inside the window, exactly while the date is
    inside the window.  If the date it stops at is unavailable, the result is
    the date one step back toward the anchor; otherwise (the walk left the
    window without meeting an unavailable date) the result is absent. *)
Theorem nextUnavailableDate_walk
    (anchorDate : CalendarDate) (state : Grid.CalendarState) (dir : Z) :
  dir = 1 \/ dir = -1 ->
  exists k : Z,
    1 <= k
    /\ (forall j, 1 <= j < k ->
          notPastEdge state dir (addDays anchorDate (j * dir)) = true
          /\ Grid.isCellUnavailable state (addDays anchorDate (j * dir)) = false)
    /\ (insideWindow state anchorDate = true ->
        forall j, 1 <= j < k -> insideWindow state (addDays anchorDate (j * dir)) = true)
    /\ (notPastEdge state dir (addDays anchorDate (k * dir)) = false
        \/ Grid.isCellUnavailable state (addDays anchorDate (k * dir)) = true)
    /\ nextUnavailableDate anchorDate state dir =
       (if Grid.isCellUnavailable state (addDays anchorDate (k * dir))
        then Some (addDays (addDays anchorDate (k * dir)) (- dir))
        else None)
    /\ (forall fuel, (scanFuel anchorDate state dir <= fuel)%nat ->
          nextUnavailableDateFuel fuel anchorDate state dir
          = Some (nextUnavailableDate anchorDate state dir)).
Proof.
  intros Hdir.
  assert (Hnz : dir <> 0) by lia.
  destruct (nextUnavailableDate_stop anchorDate state dir Hnz)
    as (k & Hk & Hwalk & Hend & Hres & Hfuel).
  exists k. split; [exact Hk|]. split; [|split; [|split; [|split]]].
  - intros j Hj. apply scanGuard_true. now apply Hwalk.
  - intros Hin j Hj. apply insideWindow_walk; try assumption; try lia.
    apply (scanGuard_true _ _ _ (Hwalk j Hj)).
  - now apply scanGuard_false.
  - rewrite Hres. destruct (Grid.isCellUnavailable state _); [|reflexivity].
    rewrite addDays_addDays. do 2 f_equal. ring.
  - exact Hfuel.
Qed.

(** The scan of the example: the window is 10-20 January, the anchor is
    5 January and 7 January is unavailable. *)
Lemma nextUnavailableDate_walk_witness :
  exists k : Z,
    1 <= k
    /\ nextUnavailableDate (jan 5) (gridShowing midJanuary (onDay 7)) 1 =
       (if Grid.isCellUnavailable (gridShowing midJanuary (onDay 7)) (addDays (jan 5) (k * 1))
        then Some (addDays (addDays (jan 5) (k * 1)) (- (1)))
        else None).
Proof.
  destruct (nextUnavailableDate_walk (jan 5) (gridShowing midJanuary (onDay 7)) 1
              (or_introl eq_refl))
    as (k & Hk & _ & _ & _ & Hres & _).
  exists k. split; [exact Hk | exact Hres].
Defined.

(** C2 (as stated) fails: with the anchor before the window, the forward
    scan walks over 6 January, which is not inside the window, and returns it
    as the boundary, where a walk confined to the window returns absent. *)
Lemma nextUnavailableDate_walks_before_window :
  insideWindow (gridShowing midJanuary (onDay 7)) (jan 6) = false
  /\ nextUnavailableDate (jan 5) (gridShowing midJanuary (onDay 7)) 1 = Some (jan 6)
  /\ nextUnavailableDateByWords (jan 5) (gridShowing midJanuary (onDay 7)) 1 = None.
Proof. repeat split; vm_compute; reflexivity. Qed.

(** ** Value conversion *)

Lemma makeRange_dates (a b : CalendarDate) :
  makeRange (Some (DateOnly a)) (Some (DateOnly b)) =
  Some (if julianDay b <? julianDay a then mkRange b a else mkRange a b).
Proof.
  unfold makeRange. rewrite compare_date. unfold dayOf; cbn [toCalendarDate].
  destruct (julianDay b - julianDay a <? 0) eqn:E;
    [apply Z.ltb_lt in E | apply Z.ltb_ge in E].
  - replace (julianDay b <? julianDay a) with true by (symmetry; apply Z.ltb_lt; lia).
    reflexivity.
  - replace (julianDay b <? julianDay a) with false by (symmetry; apply Z.ltb_ge; lia).
    reflexivity.
Qed.

Lemma selectConstrained_commit (props : Props) (st : State) (anchor date : CalendarDate) :
  anchorDate st = Some anchor ->
  selectConstrained props st date =
  setAnchorDate props (setValue st (committedRange st anchor date)) None.
Proof.
  intros Ha. unfold selectConstrained. rewrite Ha, makeRange_dates.
  unfold committedRange. destruct (julianDay date <? julianDay anchor); reflexivity.
Qed.

Lemma selectDate_unfold (props : Props) (st : State) (date : CalendarDate) :
  isReadOnly props = false ->
  selectDate props st date =
  match Utils.previousAvailableDate
          (Utils.constrainValue date (min props st) (max props st))
          (DateOnly (start (Grid.visibleRange (calendar st))))
          (isDateUnavailable props) with
  | None => st
  | Some picked => selectConstrained props st picked
  end.
Proof. intros H. unfold selectDate. now rewrite H. Qed.

(** C3: [convertValue] emits the new date in the calendar system of the old
    endpoint when there is one and in the Gregorian calendar otherwise; the
    emitted endpoint carries exactly the time-of-day of the old endpoint (none
    when the old endpoint has none, or when there is no old endpoint), and
    falls on the day of the new date.  A pick that commits a range converts
    the start against the old start and the end against the old end, so each
    committed endpoint carries the time-of-day of the old endpoint on its own
    side. *)
Theorem convertValue_keeps_calendar_and_time
    (newValue : CalendarDate) (oldValue : option DateValue) :
  calendarOf (convertValue newValue oldValue) =
    match oldValue with Some o => calendarOf o | None => GregorianCalendar end
  /\ timeOf (convertValue newValue oldValue) =
    match oldValue with Some o => timeOf o | None => None end
  /\ dayOf (convertValue newValue oldValue) = julianDay newValue
  /\ forall (props : Props) (st : State) (date anchor picked : CalendarDate),
       isReadOnly props = false ->
       anchorDate st = Some anchor ->
       Utils.previousAvailableDate
         (Utils.constrainValue date (min props st) (max props st))
         (DateOnly (start (Grid.visibleRange (calendar st))))
         (isDateUnavailable props) = Some picked ->
       exists range committed,
         makeRange (Some (DateOnly anchor)) (Some (DateOnly picked)) = Some range
         /\ value (selectDate props st date) = Some committed
         /\ start committed = convertValue (start range) (option_map start (value st))
         /\ end_ committed = convertValue (end_ range) (option_map end_ (value st))
         /\ timeOf (start committed) =
            match value st with Some old => timeOf (start old) | None => None end
         /\ timeOf (end_ committed) =
            match value st with Some old => timeOf (end_ old) | None => None end.
Proof.
  assert (Hconv : forall (n : CalendarDate) (o : option DateValue),
             timeOf (convertValue n o) = match o with Some x => timeOf x | None => None end).
  { intros n [[d|d t]|]; reflexivity. }
  repeat split.
  - destruct oldValue as [[d|d t]|]; reflexivity.
  - apply Hconv.
  - destruct oldValue as [[d|d t]|]; reflexivity.
  - intros props st date anchor picked Hro Hanchor Hpick.
    rewrite (selectDate_unfold _ _ _ Hro), Hpick,
      (selectConstrained_commit _ _ _ _ Hanchor), makeRange_dates.
    eexists. exists (committedRange st anchor picked).
    split; [reflexivity|].
    unfold committedRange.
    destruct (julianDay picked <? julianDay anchor); cbn;
      rewrite !Hconv; destruct (value st) as [old|]; cbn; repeat split; reflexivity.
Qed.

(** Scenario D of the specification: the old start carries 09:00 in a
    non-Gregorian calendar, the old end is a pure date; after the anchor
    10 January, picking 3 January commits a start at 09:00 and a pure end. *)
Lemma convertValue_keeps_calendar_and_time_witness :
  exists range committed,
    makeRange (Some (DateOnly (jan 10))) (Some (DateOnly (jan 3))) = Some range
    /\ value (selectDate (januaryProps None false None)
                (pickedOnce (januaryProps None false None) (Some timedValue)
                            (januaryGrid (fun _ => false)) (jan 10))
                (jan 3)) = Some committed
    /\ start committed =
       convertValue (start range)
         (option_map start
            (value (pickedOnce (januaryProps None false None) (Some timedValue)
                               (januaryGrid (fun _ => false)) (jan 10))))
    /\ end_ committed =
       convertValue (end_ range)
         (option_map end_
            (value (pickedOnce (januaryProps None false None) (Some timedValue)
                               (januaryGrid (fun _ => false)) (jan 10))))
    /\ timeOf (start committed) = Some nineOClock
    /\ timeOf (end_ committed) = None.
Proof.
  apply (proj2 (proj2 (proj2 (convertValue_keeps_calendar_and_time (jan 3) None)))
           (januaryProps None false None)
           (pickedOnce (januaryProps None false None) (Some timedValue)
                       (januaryGrid (fun _ => false)) (jan 10))
           (jan 3) (jan 10) (jan 3)).
  - reflexivity.
  - reflexivity.
  - vm_compute. reflexivity.
Defined.

(** ** Read-only calendars *)

(** C7: when [isReadOnly] is true, [selectDate] returns without any effect:
    the state is returned as it was, so the committed value, the anchor date
    and the available range (state and ref) are unchanged; the same holds for
    [selectFocusedDate], which goes through [selectDate]. *)
Theorem selectDate_readOnly (props : Props) (st : State) (date : CalendarDate) :
  isReadOnly props = true ->
  selectDate props st date = st
  /\ value (selectDate props st date) = value st
  /\ anchorDate (selectDate props st date) = anchorDate st
  /\ availableRange (selectDate props st date) = availableRange st
  /\ availableRangeRef (selectDate props st date) = availableRangeRef st
  /\ selectFocusedDate props st = st.
Proof.
  intros Hro. unfold selectFocusedDate, selectDate. rewrite Hro. repeat split.
Qed.

(** Scenario C of the specification: a read-only calendar with an anchor on
    10 January ignores a pick of 20 January. *)
Lemma selectDate_readOnly_witness :
  selectDate (januaryProps None true None)
    (pickedOnce (januaryProps None false None) None (januaryGrid (fun _ => false)) (jan 10))
    (jan 20)
  = pickedOnce (januaryProps None false None) None (januaryGrid (fun _ => false)) (jan 10).
Proof.
  apply (selectDate_readOnly (januaryProps None true None)
           (pickedOnce (januaryProps None false None) None
                       (januaryGrid (fun _ => false)) (jan 10))
           (jan 20)).
  reflexivity.
Defined.

(** ** Window alignment *)

(** C8: for a value present when the state is built, the alignment is
    ['center'], except that it is ['start'] when the value's end compares
    after the last day of the window obtained by centering on the value's
    start (the aligned start plus the visible duration minus one day).
    Without a value the alignment is ['center']. *)
Theorem alignment_center_unless_end_overflows
    (alignCenter : CalendarDate -> DateDuration -> string ->
                   option DateValue -> option DateValue -> CalendarDate)
    (add : CalendarDate -> DateDuration -> CalendarDate)
    (props : Props) :
  alignment alignCenter add props None = center
  /\ forall v : DateRange,
       centeredWindowEnd alignCenter add props v =
         addDays (add (alignCenter (toCalendarDate (start v)) (visibleDuration props)
                                   (locale props) (minValue props) (maxValue props))
                      (visibleDuration props)) (-1)
       /\ (compare (end_ v) (DateOnly (centeredWindowEnd alignCenter add props v)) > 0 ->
           alignment alignCenter add props (Some v) = alignStart)
       /\ (compare (end_ v) (DateOnly (centeredWindowEnd alignCenter add props v)) <= 0 ->
           alignment alignCenter add props (Some v) = center).
Proof.
  split; [reflexivity|]. intros v. split; [reflexivity|].
  unfold alignment.
  destruct (compare (end_ v) (DateOnly (centeredWindowEnd alignCenter add props v)) >? 0) eqn:E.
  - split; [reflexivity|]. intros H. apply Z.gtb_lt in E. lia.
  - split; [|reflexivity]. intros H.
    rewrite Z.gtb_ltb in E. apply Z.ltb_ge in E. lia.
Qed.

(** A value from 20 January to 25 February: centering on the start gives a
    window that ends on 4 February, before the value's end, so the window is
    aligned on the start; a value from 20 to 25 January stays centered. *)
Lemma alignment_center_unless_end_overflows_witness :
  alignment centerOn addMonth (januaryProps None false None)
    (Some (mkRange (DateOnly (jan 20)) (DateOnly (jan 56)))) = alignStart
  /\ alignment centerOn addMonth (januaryProps None false None)
    (Some (mkRange (DateOnly (jan 20)) (DateOnly (jan 25)))) = center.
Proof.
  split.
  - apply (proj2 (alignment_center_unless_end_overflows centerOn addMonth
                    (januaryProps None false None))
             (mkRange (DateOnly (jan 20)) (DateOnly (jan 56)))).
    vm_compute. reflexivity.
  - apply (proj2 (alignment_center_unless_end_overflows centerOn addMonth
                    (januaryProps None false None))
             (mkRange (DateOnly (jan 20)) (DateOnly (jan 25)))).
    vm_compute. discriminate.
Defined.

(** ** Validation *)

(** C6 (as amended): an explicit validation flag of the caller is returned as
    it is, whatever the selection.  Without a flag: for a committed value and
    no active anchor, [validationState] is ['invalid'] if and only if the
    unavailability predicate marks either endpoint unavailable or either
    endpoint falls outside the caller's min/max bounds; while an anchor is
    active, and when there is no value, there is no validation state; and the
    derived state is never ['valid']. *)
Theorem validationState_derivation (props : Props) (st : State) :
  (forall flag, validationStateProp props = Some flag ->
     validationState props st = Some flag)
  /\ (validationStateProp props = None ->
      (forall r, value st = Some r -> anchorDate st = None ->
         (validationState props st = Some invalid <->
            (exists unavailable,
                isDateUnavailable props = Some unavailable
                /\ (unavailable (start r) = true \/ unavailable (end_ r) = true))
            \/ Utils.isInvalid (start r) (minValue props) (maxValue props) = true
            \/ Utils.isInvalid (end_ r) (minValue props) (maxValue props) = true))
      /\ (anchorDate st <> None -> validationState props st = None)
      /\ (value st = None -> validationState props st = None)
      /\ validationState props st <> Some valid).
Proof.
  split.
  - intros flag H. unfold validationState. now rewrite H.
  - intros Hflag. unfold validationState. rewrite Hflag.
    split; [|split; [|split]].
    + intros r Hvalue Hanchor. unfold isInvalidSelection. rewrite Hvalue, Hanchor.
      split.
      * destruct (isDateUnavailable props) as [f|].
        { destruct (f (start r)) eqn:Fs; cbn [orb].
          { intros _. left. exists f. auto. }
          destruct (f (end_ r)) eqn:Fe.
          { intros _. left. exists f. auto. }
          intros Hv.
          destruct (Utils.isInvalid (start r) _ _); [auto|].
          destruct (Utils.isInvalid (end_ r) _ _); [auto|]. discriminate. }
        intros Hv.
        destruct (Utils.isInvalid (start r) _ _); [auto|].
        destruct (Utils.isInvalid (end_ r) _ _); [auto|]. discriminate.
      * intros [(f & Hf & Hu) | Hb].
        { rewrite Hf. destruct Hu as [-> | ->]; [reflexivity|].
          now rewrite orb_true_r. }
        destruct (isDateUnavailable props) as [f|].
        { destruct (f (start r) || f (end_ r)); [reflexivity|].
          destruct Hb as [-> | ->]; [reflexivity | now rewrite orb_true_r]. }
        destruct Hb as [-> | ->]; [reflexivity | now rewrite orb_true_r].
    + intros Ha. unfold isInvalidSelection.
      destruct (value st); [|reflexivity].
      destruct (anchorDate st); [reflexivity | congruence].
    + intros Hv. unfold isInvalidSelection. now rewrite Hv.
    + destruct (isInvalidSelection props st); discriminate.
Qed.

(** A committed range that starts on an unavailable day is invalid when the
    caller gives no flag. *)
Lemma validationState_derivation_witness :
  validationState (januaryProps (Some (onDay 15)) false None)
    (idle (Some (mkRange (DateOnly (jan 15)) (DateOnly (jan 20))))
          (januaryGrid (onDay 15)))
  = Some invalid.
Proof.
  apply (proj1 (proj2 (validationState_derivation
                         (januaryProps (Some (onDay 15)) false None)
                         (idle (Some (mkRange (DateOnly (jan 15)) (DateOnly (jan 20))))
                               (januaryGrid (onDay 15))))
                  eq_refl)
           (mkRange (DateOnly (jan 15)) (DateOnly (jan 20))) eq_refl eq_refl).
  left. exists (onDay 15). split; [reflexivity | left; reflexivity].
Defined.

(** C6 (as stated) fails: the caller's flag overrides the derivation.  With
    the flag ['valid'], a committed range whose start is unavailable is
    reported valid; with the flag ['invalid'], the state is reported invalid
    while an anchor is active. *)
Lemma validationState_flag_overrides :
  (value (idle (Some (mkRange (DateOnly (jan 15)) (DateOnly (jan 20))))
               (januaryGrid (onDay 15)))
   = Some (mkRange (DateOnly (jan 15)) (DateOnly (jan 20)))
   /\ anchorDate (idle (Some (mkRange (DateOnly (jan 15)) (DateOnly (jan 20))))
                       (januaryGrid (onDay 15))) = None
   /\ onDay 15 (DateOnly (jan 15)) = true
   /\ validationState (januaryProps (Some (onDay 15)) false (Some valid))
        (idle (Some (mkRange (DateOnly (jan 15)) (DateOnly (jan 20))))
              (januaryGrid (onDay 15)))
      = Some valid)
  /\ (anchorDate (pickedOnce (januaryProps None false (Some invalid)) None
                             (januaryGrid (fun _ => false)) (jan 10))
      = Some (jan 10)
      /\ validationState (januaryProps None false (Some invalid))
           (pickedOnce (januaryProps None false (Some invalid)) None
                       (januaryGrid (fun _ => false)) (jan 10))
         = Some invalid).
Proof. repeat split. Qed.

(** ** The availability snap *)

Lemma snapBack_unfold (fuel : nat) (date : CalendarDate) (minValue : DateValue)
    (unavailable : DateValue -> bool) :
  Utils.snapBack (S fuel) date minValue unavailable =
  if (julianDay date - dayOf minValue >=? 0) && unavailable (DateOnly date)
  then Utils.snapBack fuel (addDays date (-1)) minValue unavailable
  else Some (if julianDay date - dayOf minValue >=? 0 then Some date else None).
Proof. reflexivity. Qed.

(** The walk finds the nearest available date at or before [date]. *)
Lemma snapBack_found (minValue : DateValue) (unavailable : DateValue -> bool) (k : nat) :
  forall fuel date,
    (k < fuel)%nat ->
    (forall j : nat, (j < k)%nat -> unavailable (DateOnly (addDays date (- Z.of_nat j))) = true) ->
    unavailable (DateOnly (addDays date (- Z.of_nat k))) = false ->
    dayOf minValue <= julianDay date - Z.of_nat k ->
    Utils.snapBack fuel date minValue unavailable = Some (Some (addDays date (- Z.of_nat k))).
Proof.
  induction k as [|k IH]; intros fuel date Hfuel Hwalk Hfree Hmin;
    (destruct fuel as [|fuel]; [lia|]); rewrite snapBack_unfold.
  - cbn [Z.of_nat Z.opp] in *. rewrite addDays_zero in *. rewrite Hfree, andb_false_r.
    replace (julianDay date - dayOf minValue >=? 0) with true
      by (symmetry; apply Z.geb_le; lia).
    reflexivity.
  - replace (julianDay date - dayOf minValue >=? 0) with true
      by (symmetry; apply Z.geb_le; lia).
    pose proof (Hwalk 0%nat ltac:(lia)) as H0.
    cbn [Z.of_nat Z.opp] in H0. rewrite addDays_zero in H0. rewrite H0. cbn [andb].
    rewrite (IH fuel (addDays date (-1))).
    + rewrite addDays_addDays. do 3 f_equal. lia.
    + lia.
    + intros j Hj. rewrite addDays_addDays.
      replace (-1 + - Z.of_nat j) with (- Z.of_nat (S j)) by lia.
      apply Hwalk. lia.
    + rewrite addDays_addDays.
      replace (-1 + - Z.of_nat k) with (- Z.of_nat (S k)) by lia. exact Hfree.
    + rewrite julianDay_addDays. lia.
Qed.

(** The walk aborts when every date down to [minValue] is unavailable. *)
Lemma snapBack_none (minValue : DateValue) (unavailable : DateValue -> bool) (fuel : nat) :
  forall date,
    (Z.to_nat (julianDay date - dayOf minValue + 1) < fuel)%nat ->
    (forall k, 0 <= k <= julianDay date - dayOf minValue ->
       unavailable (DateOnly (addDays date (- k))) = true) ->
    Utils.snapBack fuel date minValue unavailable = Some None.
Proof.
  induction fuel as [|fuel IH]; intros date Hfuel Hall; [lia|].
  rewrite snapBack_unfold.
  destruct (julianDay date - dayOf minValue >=? 0) eqn:Hge.
  - apply Z.geb_le in Hge.
    pose proof (Hall 0 ltac:(lia)) as H0. cbn [Z.opp] in H0.
    rewrite addDays_zero in H0. rewrite H0. cbn [andb].
    apply IH.
    + rewrite julianDay_addDays. lia.
    + intros k Hk. rewrite julianDay_addDays in Hk. rewrite addDays_addDays.
      replace (-1 + - k) with (- (k + 1)) by lia. apply Hall. lia.
  - reflexivity.
Qed.


(** The walk terminates within the distance to [minValue], and more fuel
    does not change its result. *)
Lemma snapBack_terminates (minValue : DateValue) (unavailable : DateValue -> bool) (fuel : nat) :
  forall date,
    (Z.to_nat (julianDay date - dayOf minValue + 1) < fuel)%nat ->
    exists r, Utils.snapBack fuel date minValue unavailable = Some r.
Proof.
  induction fuel as [|fuel IH]; intros date Hfuel; [lia|].
  rewrite snapBack_unfold.
  destruct (julianDay date - dayOf minValue >=? 0) eqn:Hge; cbn [andb]; [|eauto].
  destruct (unavailable (DateOnly date)); [|eauto].
  apply IH. apply Z.geb_le in Hge. rewrite julianDay_addDays. lia.
Qed.

Lemma snapBack_more_fuel (minValue : DateValue) (unavailable : DateValue -> bool) (fuel : nat) :
  forall fuel' date r,
    Utils.snapBack fuel date minValue unavailable = Some r ->
    (fuel <= fuel')%nat ->
    Utils.snapBack fuel' date minValue unavailable = Some r.
Proof.
  induction fuel as [|fuel IH]; intros fuel' date r H Hle; [discriminate|].
  destruct fuel' as [|fuel']; [lia|].
  rewrite snapBack_unfold in *.
  destruct ((julianDay date - dayOf minValue >=? 0) && unavailable (DateOnly date));
    [|exact H].
  apply IH; [exact H | lia].
Qed.

Lemma previousAvailableDate_fuel (date : CalendarDate) (minValue : DateValue)
    (unavailable : DateValue -> bool) (fuel : nat) :
  (Utils.snapFuel date minValue <= fuel)%nat ->
  Utils.snapBack fuel date minValue unavailable
  = Some (Utils.previousAvailableDate date minValue (Some unavailable)).
Proof.
  intros Hfuel.
  destruct (snapBack_terminates minValue unavailable (Utils.snapFuel date minValue) date)
    as [r Hr].
  { unfold Utils.snapFuel. unfold dayOf at 2; cbn [toCalendarDate]. lia. }
  unfold Utils.previousAvailableDate. rewrite Hr.
  exact (snapBack_more_fuel _ _ _ _ _ _ Hr Hfuel).
Qed.

Lemma previousAvailableDate_found (date : CalendarDate) (minValue : DateValue)
    (unavailable : DateValue -> bool) (k : Z) :
  0 <= k ->
  (forall j, 0 <= j < k -> unavailable (DateOnly (addDays date (- j))) = true) ->
  unavailable (DateOnly (addDays date (- k))) = false ->
  dayOf minValue <= julianDay date - k ->
  Utils.previousAvailableDate date minValue (Some unavailable) = Some (addDays date (- k)).
Proof.
  intros Hk Hwalk Hfree Hmin. unfold Utils.previousAvailableDate.
  rewrite (snapBack_found minValue unavailable (Z.to_nat k)).
  - now rewrite Z2Nat.id by lia.
  - unfold Utils.snapFuel. unfold dayOf at 1; cbn [toCalendarDate]. lia.
  - intros j Hj. apply Hwalk. lia.
  - now rewrite Z2Nat.id by lia.
  - rewrite Z2Nat.id by lia. exact Hmin.
Qed.

Lemma previousAvailableDate_none (date : CalendarDate) (minValue : DateValue)
    (unavailable : DateValue -> bool) :
  (forall k, 0 <= k <= julianDay date - dayOf minValue ->
     unavailable (DateOnly (addDays date (- k))) = true) ->
  Utils.previousAvailableDate date minValue (Some unavailable) = None.
Proof.
  intros Hall. unfold Utils.previousAvailableDate.
  rewrite snapBack_none; [reflexivity | | exact Hall].
  unfold Utils.snapFuel. unfold dayOf at 2; cbn [toCalendarDate]. lia.
Qed.

(** An available date that is not before [minValue] is kept. *)
Lemma previousAvailableDate_keeps (date : CalendarDate) (minValue : DateValue)
    (isUnavailable : option (DateValue -> bool)) :
  match isUnavailable with
  | Some unavailable =>
      unavailable (DateOnly date) = false /\ dayOf minValue <= julianDay date
  | None => True
  end ->
  Utils.previousAvailableDate date minValue isUnavailable = Some date.
Proof.
  destruct isUnavailable as [f|]; [|reflexivity].
  intros [Hfree Hmin].
  rewrite <- (addDays_zero date) at 2.
  apply (previousAvailableDate_found date minValue f 0).
  - lia.
  - intros j Hj. lia.
  - cbn [Z.opp]. now rewrite addDays_zero.
  - lia.
Qed.


(** ** Bounds and clamping *)

(** The sign of [compare] orders the days. *)
Lemma compare_days (x y : DateValue) :
  (0 <= compare x y -> dayOf y <= dayOf x) /\ (compare x y <= 0 -> dayOf x <= dayOf y).
Proof.
  unfold compare. destruct x as [d|d t].
  - lia.
  - destruct (dayOf (DateTime d t) - dayOf y =? 0) eqn:E.
    + apply Z.eqb_eq in E. lia.
    + lia.
Qed.

Lemma maxDate_notBefore (a b : option DateValue) (day : Z) :
  notBefore (maxDate a b) day <-> notBefore a day /\ notBefore b day.
Proof.
  destruct a as [x|], b as [y|]; cbn; try tauto.
  destruct (compare_days x y) as [Hge Hle].
  destruct (compare x y >=? 0) eqn:E; cbn.
  - apply Z.geb_le in E. specialize (Hge E). split; [intros; split; lia | tauto].
  - rewrite Z.geb_leb in E. apply Z.leb_gt in E. specialize (Hle ltac:(lia)).
    split; [intros; split; lia | tauto].
Qed.

Lemma minDate_notAfter (a b : option DateValue) (day : Z) :
  notAfter (minDate a b) day <-> notAfter a day /\ notAfter b day.
Proof.
  destruct a as [x|], b as [y|]; cbn; try tauto.
  destruct (compare_days x y) as [Hge Hle].
  destruct (compare x y <=? 0) eqn:E; cbn.
  - apply Z.leb_le in E. specialize (Hle E). split; [intros; split; lia | tauto].
  - apply Z.leb_gt in E. specialize (Hge ltac:(lia)).
    split; [intros; split; lia | tauto].
Qed.



(** A date within the bounds is left as it is. *)
Lemma constrainValue_id (date : CalendarDate) (lower upper : option DateValue) :
  notBefore lower (julianDay date) ->
  notAfter upper (julianDay date) ->
  Utils.constrainValue date lower upper = date.
Proof.
  unfold Utils.constrainValue. intros Hlo Hhi.
  assert (Hkeep : match lower with
                  | Some m => if compare (DateOnly date) (DateOnly (toCalendarDate m)) >=? 0
                              then date else toCalendarDate m
                  | None => date
                  end = date).
  { destruct lower as [lo|]; [|reflexivity]. cbn [notBefore] in Hlo.
    rewrite compare_date.
    replace (julianDay date - dayOf (DateOnly (toCalendarDate lo)) >=? 0) with true;
      [reflexivity|].
    symmetry. apply Z.geb_le. unfold dayOf in *. cbn [toCalendarDate]. lia. }
  rewrite Hkeep.
  destruct upper as [hi|]; [|reflexivity]. cbn [notAfter] in Hhi.
  rewrite compare_date.
  replace (julianDay date - dayOf (DateOnly (toCalendarDate hi)) <=? 0) with true;
    [reflexivity|].
  symmetry. apply Z.leb_le. unfold dayOf in *. cbn [toCalendarDate]. lia.
Qed.

(** ** The available range around an anchor *)

Lemma availableRange_setAnchorDate (props : Props) (st : State) (d : CalendarDate) :
  availableRange (setAnchorDate props st (Some d)) =
  match isDateUnavailable props, allowsNonContiguousRanges props with
  | Some _, false =>
      Some (mkRange (nextUnavailableDate d (calendar st) (-1))
                    (nextUnavailableDate d (calendar st) 1))
  | _, _ => None
  end.
Proof.
  unfold setAnchorDate, updateAvailableRange.
  destruct (isDateUnavailable props), (allowsNonContiguousRanges props); reflexivity.
Qed.

(** The scan never returns a boundary on the far side of its anchor. *)
Lemma nextUnavailableDate_backward (d s : CalendarDate) (c : Grid.CalendarState) :
  nextUnavailableDate d c (-1) = Some s -> julianDay s <= julianDay d.
Proof.
  destruct (nextUnavailableDate_stop d c (-1) ltac:(lia)) as (k & Hk & _ & _ & Hres & _).
  rewrite Hres. destruct (Grid.isCellUnavailable c _); [|discriminate].
  intros H; injection H as <-. rewrite julianDay_addDays. lia.
Qed.

Lemma nextUnavailableDate_forward (d e : CalendarDate) (c : Grid.CalendarState) :
  nextUnavailableDate d c 1 = Some e -> julianDay d <= julianDay e.
Proof.
  destruct (nextUnavailableDate_stop d c 1 ltac:(lia)) as (k & Hk & _ & _ & Hres & _).
  rewrite Hres. destruct (Grid.isCellUnavailable c _); [|discriminate].
  intros H; injection H as <-. rewrite julianDay_addDays. lia.
Qed.

(** After [setAnchorDate(d)] the effective bounds are the caller's bounds
    tightened around the anchor, which they contain whenever the caller's
    bounds do. *)
Lemma min_setAnchorDate (props : Props) (st : State) (d : CalendarDate) (day : Z) :
  notBefore (minValue props) day ->
  julianDay d <= day ->
  notBefore (min props (setAnchorDate props st (Some d))) day.
Proof.
  intros Hcaller Hd. unfold min. apply maxDate_notBefore. split; [exact Hcaller|].
  rewrite availableRange_setAnchorDate.
  destruct (isDateUnavailable props), (allowsNonContiguousRanges props); cbn; try exact I.
  destruct (nextUnavailableDate d (calendar st) (-1)) as [s|] eqn:E; cbn; [|exact I].
  apply nextUnavailableDate_backward in E. unfold dayOf; cbn. lia.
Qed.

Lemma max_setAnchorDate (props : Props) (st : State) (d : CalendarDate) (day : Z) :
  notAfter (maxValue props) day ->
  day <= julianDay d ->
  notAfter (max props (setAnchorDate props st (Some d))) day.
Proof.
  intros Hcaller Hd. unfold max. apply minDate_notAfter. split; [exact Hcaller|].
  rewrite availableRange_setAnchorDate.
  destruct (isDateUnavailable props), (allowsNonContiguousRanges props); cbn; try exact I.
  destruct (nextUnavailableDate d (calendar st) 1) as [e|] eqn:E; cbn; [|exact I].
  apply nextUnavailableDate_forward in E. unfold dayOf; cbn. lia.
Qed.

(** ** Two picks *)

Lemma selectDate_first (props : Props) (st : State) (a picked : CalendarDate) :
  isReadOnly props = false ->
  anchorDate st = None ->
  Utils.previousAvailableDate (Utils.constrainValue a (min props st) (max props st))
    (DateOnly (start (Grid.visibleRange (calendar st)))) (isDateUnavailable props)
  = Some picked ->
  selectDate props st a = setAnchorDate props st (Some picked).
Proof.
  intros Hro Hanchor Hsnap.
  rewrite (selectDate_unfold _ _ _ Hro), Hsnap. unfold selectConstrained.
  now rewrite Hanchor.
Qed.

Lemma selectDate_second (props : Props) (st : State) (b anchor picked : CalendarDate) :
  isReadOnly props = false ->
  anchorDate st = Some anchor ->
  Utils.previousAvailableDate (Utils.constrainValue b (min props st) (max props st))
    (DateOnly (start (Grid.visibleRange (calendar st)))) (isDateUnavailable props)
  = Some picked ->
  selectDate props st b =
  setAnchorDate props (setValue st (committedRange st anchor picked)) None.
Proof.
  intros Hro Hanchor Hsnap.
  rewrite (selectDate_unfold _ _ _ Hro), Hsnap.
  now apply selectConstrained_commit.
Qed.

Lemma setAnchorDate_fields (props : Props) (st : State) (d : CalendarDate) :
  anchorDate (setAnchorDate props st (Some d)) = Some d
  /\ value (setAnchorDate props st (Some d)) = value st
  /\ calendar (setAnchorDate props st (Some d)) = calendar st.
Proof.
  unfold setAnchorDate, updateAvailableRange.
  destruct (isDateUnavailable props), (allowsNonContiguousRanges props); repeat split.
Qed.

Lemma commit_fields (props : Props) (st : State) (r : DateRange) :
  value (setAnchorDate props (setValue st r) None) = Some r
  /\ anchorDate (setAnchorDate props (setValue st r) None) = None
  /\ availableRange (setAnchorDate props (setValue st r) None) = None
  /\ availableRangeRef (setAnchorDate props (setValue st r) None) = None
  /\ calendar (setAnchorDate props (setValue st r) None) = calendar st.
Proof. repeat split. Qed.

Lemma dayOf_convertValue (n : CalendarDate) (o : option DateValue) :
  dayOf (convertValue n o) = julianDay n.
Proof. destruct o as [[d|d t]|]; reflexivity. Qed.

Lemma committedRange_days (st : State) (anchor picked : CalendarDate) :
  dayOf (start (committedRange st anchor picked)) = Z.min (julianDay anchor) (julianDay picked)
  /\ dayOf (end_ (committedRange st anchor picked)) = Z.max (julianDay anchor) (julianDay picked).
Proof.
  unfold committedRange.
  destruct (julianDay picked <? julianDay anchor) eqn:E; cbn [start end_];
    rewrite !dayOf_convertValue;
    [apply Z.ltb_lt in E | apply Z.ltb_ge in E]; lia.
Qed.

(** C5: when the clamped candidate is unavailable, [selectDate] moves it
    toward the start of the visible window date by date (a walk that ends
    within the distance to the window start) and goes on with the nearest
    earlier available date that is not before the window start, every date
    in between being unavailable: with no anchor that date becomes the anchor
    and the committed value is untouched; with an anchor the range of the
    anchor and that date is committed and the anchor cleared; a read-only
    calendar changes nothing.  If no date from the clamped candidate down to
    the window start is available, the pick is dropped: the state is returned
    as it was, so neither the anchor nor the committed value nor any derived
    state changes. *)
Theorem selectDate_snaps_back
    (props : Props) (st : State) (date : CalendarDate) (unavailable : DateValue -> bool) :
  let clamped := Utils.constrainValue date (min props st) (max props st) in
  let windowStart := start (Grid.visibleRange (calendar st)) in
  isDateUnavailable props = Some unavailable ->
  unavailable (DateOnly clamped) = true ->
  (forall fuel, (Utils.snapFuel clamped (DateOnly windowStart) <= fuel)%nat ->
     Utils.snapBack fuel clamped (DateOnly windowStart) unavailable
     = Some (Utils.previousAvailableDate clamped (DateOnly windowStart) (Some unavailable)))
  /\ (forall k,
      0 < k ->
      julianDay windowStart <= julianDay clamped - k ->
      unavailable (DateOnly (addDays clamped (- k))) = false ->
      (forall j, 0 < j < k -> unavailable (DateOnly (addDays clamped (- j))) = true) ->
      Utils.previousAvailableDate clamped (DateOnly windowStart) (Some unavailable)
      = Some (addDays clamped (- k))
      /\ (isReadOnly props = true -> selectDate props st date = st)
      /\ (isReadOnly props = false ->
          anchorDate st = None ->
          anchorDate (selectDate props st date) = Some (addDays clamped (- k))
          /\ value (selectDate props st date) = value st)
      /\ (isReadOnly props = false ->
          forall anchor,
            anchorDate st = Some anchor ->
            value (selectDate props st date)
            = Some (mkRange
                      (convertValue
                         (if julianDay clamped - k <? julianDay anchor
                          then addDays clamped (- k) else anchor)
                         (option_map start (value st)))
                      (convertValue
                         (if julianDay clamped - k <? julianDay anchor
                          then anchor else addDays clamped (- k))
                         (option_map end_ (value st))))
            /\ anchorDate (selectDate props st date) = None
            /\ dayOf (start (committedRange st anchor (addDays clamped (- k))))
               = Z.min (julianDay anchor) (julianDay clamped - k)
            /\ dayOf (end_ (committedRange st anchor (addDays clamped (- k))))
               = Z.max (julianDay anchor) (julianDay clamped - k)))
  /\ ((forall k, 0 < k <= julianDay clamped - julianDay windowStart ->
         unavailable (DateOnly (addDays clamped (- k))) = true) ->
      Utils.previousAvailableDate clamped (DateOnly windowStart) (Some unavailable) = None
      /\ selectDate props st date = st
      /\ anchorDate (selectDate props st date) = anchorDate st
      /\ value (selectDate props st date) = value st
      /\ highlightedRange (selectDate props st date) = highlightedRange st
      /\ validationState props (selectDate props st date) = validationState props st).
Proof.
  intros clamped windowStart Hpred Hclamped.
  assert (Hzero : forall j, 0 <= j -> j < 1 ->
                    unavailable (DateOnly (addDays clamped (- j))) = true).
  { intros j H0 H1. replace j with 0 by lia. cbn [Z.opp].
    now rewrite addDays_zero. }
  split; [intros fuel Hfuel; now apply previousAvailableDate_fuel|].
  split.
  - intros k Hk Hmin Hfree Hbetween.
    assert (Hsnap : Utils.previousAvailableDate clamped (DateOnly windowStart) (Some unavailable)
                    = Some (addDays clamped (- k))).
    { apply previousAvailableDate_found; try assumption; try lia.
      intros j Hj. destruct (Z.eq_dec j 0) as [-> | Hne].
      - apply Hzero; lia.
      - apply Hbetween. lia. }
    assert (Hsnap' : Utils.previousAvailableDate
                       (Utils.constrainValue date (min props st) (max props st))
                       (DateOnly (start (Grid.visibleRange (calendar st))))
                       (isDateUnavailable props) = Some (addDays clamped (- k))).
    { rewrite Hpred. exact Hsnap. }
    split; [exact Hsnap|]. split; [|split].
    + intros Hro. unfold selectDate. now rewrite Hro.
    + intros Hro Hanchor.
      rewrite (selectDate_first props st date _ Hro Hanchor Hsnap').
      destruct (setAnchorDate_fields props st (addDays clamped (- k))) as (Ha & Hv & _).
      split; assumption.
    + intros Hro anchor Hanchor.
      rewrite (selectDate_second props st date anchor _ Hro Hanchor Hsnap').
      destruct (commit_fields props st (committedRange st anchor (addDays clamped (- k))))
        as (Hv & Ha & _).
      destruct (committedRange_days st anchor (addDays clamped (- k))) as [Hs He].
      rewrite julianDay_addDays in Hs, He.
      split; [|split; [exact Ha | split; [exact Hs | exact He]]].
      rewrite Hv. unfold committedRange. rewrite julianDay_addDays.
      replace (julianDay clamped + - k) with (julianDay clamped - k) by lia.
      destruct (julianDay clamped - k <? julianDay anchor); reflexivity.
  - intros Hall.
    assert (Hsnap : Utils.previousAvailableDate clamped (DateOnly windowStart) (Some unavailable)
                    = None).
    { apply previousAvailableDate_none. intros k Hk.
      destruct (Z.eq_dec k 0) as [-> | Hne].
      - apply Hzero; lia.
      - apply Hall. unfold dayOf in Hk; cbn [toCalendarDate] in Hk. lia. }
    assert (Hsame : selectDate props st date = st).
    { unfold selectDate. destruct (isReadOnly props); [reflexivity|].
      fold clamped. fold windowStart. rewrite Hpred, Hsnap. reflexivity. }
    rewrite Hsame. repeat split. exact Hsnap.
Qed.

(** With 15 January unavailable, a first pick of 15 January sets the anchor
    on 14 January; with the anchor on 10 January (non-contiguous ranges
    allowed), a pick of 15 January commits 10-14 January; with 1 and
    2 January unavailable, a pick of 2 January is dropped. *)
Lemma selectDate_snaps_back_witness :
  anchorDate (selectDate (januaryProps (Some (onDay 15)) false None)
                (idle None (januaryGrid (onDay 15))) (jan 15))
  = Some (jan 14)
  /\ value (selectDate (nonContiguousProps 1 (Some (onDay 15)))
              (anchoredAt (nonContiguousProps 1 (Some (onDay 15))) None
                          (januaryGrid (onDay 15)) (jan 10))
              (jan 15))
     = Some (mkRange (DateOnly (jan 10)) (DateOnly (jan 14)))
  /\ selectDate (januaryProps (Some (fun v => dayOf v <=? julianDay (jan 2))) false None)
       (idle None (januaryGrid (fun v => dayOf v <=? julianDay (jan 2)))) (jan 2)
     = idle None (januaryGrid (fun v => dayOf v <=? julianDay (jan 2))).
Proof.
  split; [|split].
  - refine (proj1 (proj1 (proj2 (proj2 (proj1 (proj2
              (selectDate_snaps_back (januaryProps (Some (onDay 15)) false None)
                 (idle None (januaryGrid (onDay 15))) (jan 15) (onDay 15)
                 eq_refl eq_refl)) 1 _ _ _ _))) eq_refl eq_refl)).
    + lia.
    + vm_compute. discriminate.
    + reflexivity.
    + intros j Hj. lia.
  - refine (proj1 (proj2 (proj2 (proj2 (proj1 (proj2
              (selectDate_snaps_back (nonContiguousProps 1 (Some (onDay 15)))
                 (anchoredAt (nonContiguousProps 1 (Some (onDay 15))) None
                             (januaryGrid (onDay 15)) (jan 10))
                 (jan 15) (onDay 15)
                 eq_refl eq_refl)) 1 _ _ _ _))) eq_refl (jan 10) eq_refl)).
    + lia.
    + vm_compute. discriminate.
    + reflexivity.
    + intros j Hj. lia.
  - apply (proj2 (proj2 (selectDate_snaps_back
                    (januaryProps (Some (fun v => dayOf v <=? julianDay (jan 2))) false None)
                    (idle None (januaryGrid (fun v => dayOf v <=? julianDay (jan 2))))
                    (jan 2) (fun v => dayOf v <=? julianDay (jan 2))
                    eq_refl eq_refl))).
    intros k Hk. apply Z.leb_le.
    change (2460312 - k <= 2460312). lia.
Defined.

(** Two picks that the clamp and the snap leave in place: the first sets the
    anchor, the second commits the range of the two. *)
Lemma selectDate_twice_kept (props : Props) (st : State) (a b : CalendarDate) :
  isReadOnly props = false ->
  anchorDate st = None ->
  notBefore (min props st) (julianDay a) ->
  notAfter (max props st) (julianDay a) ->
  keptBySnap props st a ->
  notBefore (min props (setAnchorDate props st (Some a))) (julianDay b) ->
  notAfter (max props (setAnchorDate props st (Some a))) (julianDay b) ->
  keptBySnap props st b ->
  selectDate props st a = setAnchorDate props st (Some a)
  /\ selectDate props (selectDate props st a) b =
     setAnchorDate props
       (setValue (setAnchorDate props st (Some a)) (committedRange st a b)) None.
Proof.
  intros Hro Hanchor Halo Hahi Hakept Hblo Hbhi Hbkept.
  assert (Hfirst : selectDate props st a = setAnchorDate props st (Some a)).
  { apply selectDate_first; try assumption.
    rewrite (constrainValue_id _ _ _ Halo Hahi).
    apply previousAvailableDate_keeps. exact Hakept. }
  split; [exact Hfirst|]. rewrite Hfirst.
  destruct (setAnchorDate_fields props st a) as (Hanchor1 & Hvalue1 & Hcal1).
  rewrite (selectDate_second props _ b a b Hro Hanchor1).
  - unfold committedRange. now rewrite Hvalue1.
  - rewrite (constrainValue_id _ _ _ Hblo Hbhi), Hcal1.
    apply previousAvailableDate_keeps. exact Hbkept.
Qed.

Lemma committedRange_sym (st : State) (a b : CalendarDate) :
  committedRange st a b = committedRange st b a.
Proof.
  unfold committedRange.
  destruct (julianDay b <? julianDay a) eqn:E1, (julianDay a <? julianDay b) eqn:E2;
    try reflexivity.
  - apply Z.ltb_lt in E1. apply Z.ltb_lt in E2. lia.
  - apply Z.ltb_ge in E1. apply Z.ltb_ge in E2.
    assert (Heq : julianDay a = julianDay b) by lia.
    cbn [start end_]. unfold convertValue, toCalendar. now rewrite Heq.
Qed.

(** Two picks within the caller's bounds that the snap keeps, the second
    within the available range stored by the first. *)
Lemma selectDate_twice_within (props : Props) (st : State) (x y : CalendarDate) :
  isReadOnly props = false ->
  anchorDate st = None ->
  availableRange st = None ->
  notBefore (minValue props) (julianDay x) ->
  notAfter (maxValue props) (julianDay x) ->
  notBefore (minValue props) (julianDay y) ->
  notAfter (maxValue props) (julianDay y) ->
  keptBySnap props st x ->
  keptBySnap props st y ->
  notBefore (optStart (availableRange (selectDate props st x))) (julianDay y) ->
  notAfter (optEnd (availableRange (selectDate props st x))) (julianDay y) ->
  value (selectDate props (selectDate props st x) y) = Some (committedRange st x y)
  /\ anchorDate (selectDate props (selectDate props st x) y) = None.
Proof.
  intros Hro Hanchor Hrange Hxlo Hxhi Hylo Hyhi Hxkept Hykept Hwlo Hwhi.
  assert (Hmin : forall day, notBefore (minValue props) day -> notBefore (min props st) day).
  { intros day H. unfold min. rewrite Hrange. apply maxDate_notBefore. now split. }
  assert (Hmax : forall day, notAfter (maxValue props) day -> notAfter (max props st) day).
  { intros day H. unfold max. rewrite Hrange. apply minDate_notAfter. now split. }
  assert (Hfirst : selectDate props st x = setAnchorDate props st (Some x)).
  { apply selectDate_first; try assumption.
    rewrite (constrainValue_id _ _ _ (Hmin _ Hxlo) (Hmax _ Hxhi)).
    apply previousAvailableDate_keeps. exact Hxkept. }
  rewrite Hfirst in Hwlo, Hwhi.
  destruct (selectDate_twice_kept props st x y) as [_ Htwice]; auto.
  { unfold min. apply maxDate_notBefore. now split. }
  { unfold max. apply minDate_notAfter. now split. }
  rewrite Htwice.
  destruct (commit_fields props (setAnchorDate props st (Some x)) (committedRange st x y))
    as (Hv & Ha & _).
  split; assumption.
Qed.

(** C1 (as amended): when the calendar is not read-only, for every pair of
    dates [a], [b] that are within the caller's bounds, available and not
    before the start of the visible window, and such that [b] lies within the
    available range stored by the first pick (always the case without an
    unavailability predicate or when non-contiguous ranges are allowed), the
    sequence [selectDate(a); selectDate(b)] from a state with no anchor commits
    the normalized range of [a] and [b], each endpoint converted against the
    corresponding endpoint of the previous value: its start falls on the
    earlier and its end on the later of the two days, whether [a] is before
    or after [b], and the anchor is cleared.  Picking the two dates in the
    other order, [selectDate(b); selectDate(a)], commits the same range when
    [a] likewise lies within the available range stored by the pick of [b]. *)
Theorem selectDate_twice_commits_normalized
    (props : Props) (st : State) (a b : CalendarDate) :
  isReadOnly props = false ->
  anchorDate st = None ->
  availableRange st = None ->
  notBefore (minValue props) (julianDay a) ->
  notAfter (maxValue props) (julianDay a) ->
  notBefore (minValue props) (julianDay b) ->
  notAfter (maxValue props) (julianDay b) ->
  keptBySnap props st a ->
  keptBySnap props st b ->
  notBefore (optStart (availableRange (selectDate props st a))) (julianDay b) ->
  notAfter (optEnd (availableRange (selectDate props st a))) (julianDay b) ->
  value (selectDate props (selectDate props st a) b) = Some (committedRange st a b)
  /\ anchorDate (selectDate props (selectDate props st a) b) = None
  /\ dayOf (start (committedRange st a b)) = Z.min (julianDay a) (julianDay b)
  /\ dayOf (end_ (committedRange st a b)) = Z.max (julianDay a) (julianDay b)
  /\ dayOf (start (committedRange st a b)) <= dayOf (end_ (committedRange st a b))
  /\ committedRange st a b = committedRange st b a
  /\ (notBefore (optStart (availableRange (selectDate props st b))) (julianDay a) ->
      notAfter (optEnd (availableRange (selectDate props st b))) (julianDay a) ->
      value (selectDate props (selectDate props st b) a)
      = value (selectDate props (selectDate props st a) b)
      /\ anchorDate (selectDate props (selectDate props st b) a) = None).
Proof.
  intros Hro Hanchor Hrange Halo Hahi Hblo Hbhi Hakept Hbkept Hwlo Hwhi.
  destruct (selectDate_twice_within props st a b) as [Hv Ha]; try assumption.
  destruct (committedRange_days st a b) as [Hs He].
  split; [exact Hv|]. split; [exact Ha|]. split; [exact Hs|]. split; [exact He|].
  split; [lia|]. split; [apply committedRange_sym|].
  intros Hrlo Hrhi.
  destruct (selectDate_twice_within props st b a) as [Hv' Ha']; try assumption.
  split; [|exact Ha'].
  rewrite Hv', Hv. f_equal. apply committedRange_sym.
Qed.

(** Scenario A of the specification: bounds 1-31 January, no unavailability
    predicate; picking 10 January and then 5 January commits 5-10 January
    and clears the anchor, and so does picking 5 January and then
    10 January. *)
Lemma selectDate_twice_commits_normalized_witness :
  value (selectDate (januaryProps None false None)
           (selectDate (januaryProps None false None)
              (idle None (januaryGrid (fun _ => false))) (jan 10))
           (jan 5))
  = Some (mkRange (DateOnly (jan 5)) (DateOnly (jan 10)))
  /\ anchorDate (selectDate (januaryProps None false None)
                   (selectDate (januaryProps None false None)
                      (idle None (januaryGrid (fun _ => false))) (jan 10))
                   (jan 5))
     = None
  /\ value (selectDate (januaryProps None false None)
              (selectDate (januaryProps None false None)
                 (idle None (januaryGrid (fun _ => false))) (jan 5))
              (jan 10))
     = Some (mkRange (DateOnly (jan 5)) (DateOnly (jan 10))).
Proof.
  assert (Hle : forall x y : Z, (x <=? y) = true -> x <= y)
    by (intros x y; apply Z.leb_le).
  destruct (selectDate_twice_commits_normalized (januaryProps None false None)
              (idle None (januaryGrid (fun _ => false))) (jan 10) (jan 5))
    as (Hv & Ha & _ & _ & _ & _ & Hother).
  - reflexivity.
  - reflexivity.
  - reflexivity.
  - apply Hle. reflexivity.
  - apply Hle. reflexivity.
  - apply Hle. reflexivity.
  - apply Hle. reflexivity.
  - exact I.
  - exact I.
  - exact I.
  - exact I.
  - split; [exact Hv|]. split; [exact Ha|].
    destruct (Hother I I) as [Hrev _]. rewrite Hrev. exact Hv.
Defined.

(** C1 (as stated) fails on scenario B of the specification: 15 January is
    unavailable; 10 and 20 January are both within the bounds and available,
    yet picking 10 January and then 20 January commits 10-14 January, the
    second pick being clamped to the last available day before the
    obstruction. *)
Lemma selectDate_twice_clamped_by_obstruction :
  Utils.isInvalid (DateOnly (jan 10)) (Some (DateOnly (jan 1))) (Some (DateOnly (jan 31))) = false
  /\ Utils.isInvalid (DateOnly (jan 20)) (Some (DateOnly (jan 1))) (Some (DateOnly (jan 31))) = false
  /\ onDay 15 (DateOnly (jan 10)) = false
  /\ onDay 15 (DateOnly (jan 20)) = false
  /\ anchorDate (idle None (januaryGrid (onDay 15))) = None
  /\ value (selectDate (januaryProps (Some (onDay 15)) false None)
              (selectDate (januaryProps (Some (onDay 15)) false None)
                 (idle None (januaryGrid (onDay 15))) (jan 10))
              (jan 20))
     = Some (mkRange (DateOnly (jan 10)) (DateOnly (jan 14)))
  /\ value (selectDate (januaryProps (Some (onDay 15)) false None)
              (selectDate (januaryProps (Some (onDay 15)) false None)
                 (idle None (januaryGrid (onDay 15))) (jan 10))
              (jan 20))
     <> Some (mkRange (DateOnly (jan 10)) (DateOnly (jan 20))).
Proof.
  repeat split; try (vm_compute; reflexivity).
  vm_compute. discriminate.
Qed.

(** The order of the two picks can matter when the first of them fixes an
    available range that leaves the other out: with 2 February unavailable and
    January shown, picking 20 January and then 5 February commits
    20 January - 5 February (the forward scan leaves the window without
    meeting the obstruction, so nothing is bounded), while picking 5 February
    and then 20 January commits 3-5 February (the backward scan from
    5 February stops at the obstruction). *)
Lemma selectDate_twice_order_matters :
  value (selectDate (unboundedProps (Some (onDay 33)))
           (selectDate (unboundedProps (Some (onDay 33)))
              (initialState None (januaryGrid (onDay 33))) (jan 20))
           (jan 36))
  = Some (mkRange (DateOnly (jan 20)) (DateOnly (jan 36)))
  /\ value (selectDate (unboundedProps (Some (onDay 33)))
              (selectDate (unboundedProps (Some (onDay 33)))
                 (initialState None (januaryGrid (onDay 33))) (jan 36))
              (jan 20))
     = Some (mkRange (DateOnly (jan 34)) (DateOnly (jan 36))).
Proof.
  split; vm_compute; reflexivity.
Qed.

Lemma min_without_range (props : Props) (st : State) :
  availableRange st = None -> min props st = minValue props.
Proof. intros H. unfold min. rewrite H. now destruct (minValue props). Qed.

Lemma max_without_range (props : Props) (st : State) :
  availableRange st = None -> max props st = maxValue props.
Proof. intros H. unfold max. rewrite H. now destruct (maxValue props). Qed.


(** C9 (as amended): when the calendar is not read-only, for every date [d]
    within the caller's bounds, available and not before the start of the
    visible window, picking [d] twice from a state with no anchor commits a
    single-day range: normalization with equal endpoints performs no swap and
    yields [start = end = d], and each committed endpoint is [d] converted
    against the corresponding endpoint of the previous value, so both fall on
    the day of [d]; with no previous value the two committed endpoints are
    equal.  The anchor is cleared. *)
Theorem selectDate_same_date_twice (props : Props) (st : State) (d : CalendarDate) :
  isReadOnly props = false ->
  anchorDate st = None ->
  availableRange st = None ->
  notBefore (minValue props) (julianDay d) ->
  notAfter (maxValue props) (julianDay d) ->
  keptBySnap props st d ->
  makeRange (Some (DateOnly d)) (Some (DateOnly d)) = Some (mkRange d d)
  /\ value (selectDate props (selectDate props st d) d) =
     Some (mkRange (convertValue d (option_map start (value st)))
                   (convertValue d (option_map end_ (value st))))
  /\ dayOf (convertValue d (option_map start (value st))) = julianDay d
  /\ dayOf (convertValue d (option_map end_ (value st))) = julianDay d
  /\ anchorDate (selectDate props (selectDate props st d) d) = None
  /\ (value st = None ->
      value (selectDate props (selectDate props st d) d) =
      Some (mkRange (DateOnly (toCalendar d GregorianCalendar))
                    (DateOnly (toCalendar d GregorianCalendar)))).
Proof.
  intros Hro Hanchor Hrange Hlo Hhi Hkept.
  assert (Hsame : forall x : CalendarDate, (julianDay x <? julianDay x) = false)
    by (intros x; apply Z.ltb_irrefl).
  destruct (selectDate_twice_kept props st d d) as [_ Htwice]; auto.
  { now rewrite min_without_range. }
  { now rewrite max_without_range. }
  { apply min_setAnchorDate; [exact Hlo | lia]. }
  { apply max_setAnchorDate; [exact Hhi | lia]. }
  rewrite Htwice.
  destruct (commit_fields props (setAnchorDate props st (Some d)) (committedRange st d d))
    as (Hv & Ha & _).
  rewrite Hv, Ha. unfold committedRange. rewrite Hsame. cbn [start end_].
  repeat split.
  - rewrite makeRange_dates, Hsame. reflexivity.
  - apply dayOf_convertValue.
  - apply dayOf_convertValue.
  - intros Hnone. rewrite Hnone. reflexivity.
Qed.

(** Picking 10 January twice with no previous value commits the single day
    10 January. *)
Lemma selectDate_same_date_twice_witness :
  value (selectDate (januaryProps None false None)
           (selectDate (januaryProps None false None)
              (idle None (januaryGrid (fun _ => false))) (jan 10))
           (jan 10))
  = Some (mkRange (DateOnly (jan 10)) (DateOnly (jan 10))).
Proof.
  refine (proj1 (proj2 (selectDate_same_date_twice (januaryProps None false None)
                          (idle None (januaryGrid (fun _ => false))) (jan 10)
                          _ _ _ _ _ _))).
  - reflexivity.
  - reflexivity.
  - reflexivity.
  - vm_compute. discriminate.
  - vm_compute. discriminate.
  - exact I.
Defined.

(** C9 (as stated) fails when the previous value carries a time-of-day on
    one endpoint only: with a previous start at 09:00 in another calendar and
    a pure previous end, picking 10 January twice commits a start at 09:00 in
    that calendar and a pure end, so the committed range is not
    [{start: d, end: d}] and its endpoints differ. *)
Lemma selectDate_same_date_twice_keeps_old_time :
  value (selectDate (januaryProps None false None)
           (selectDate (januaryProps None false None)
              (idle (Some timedValue) (januaryGrid (fun _ => false))) (jan 10))
           (jan 10))
  = Some (mkRange (DateTime (mkCalendarDate persian (julianDay (jan 10))) nineOClock)
                  (DateOnly (jan 10)))
  /\ mkRange (DateTime (mkCalendarDate persian (julianDay (jan 10))) nineOClock)
             (DateOnly (jan 10))
     <> mkRange (DateOnly (jan 10)) (DateOnly (jan 10))
  /\ DateTime (mkCalendarDate persian (julianDay (jan 10))) nineOClock <> DateOnly (jan 10).
Proof.
  split; [vm_compute; reflexivity|]. split; discriminate.
Qed.






(** The clamp works on the date portion of the bounds while a committed
    endpoint inherits the time-of-day of the previous value: with a previous
    start at 09:00 and the pure date 31 January as [maxValue], picking
    31 January and then 9 February commits a start on 31 January at 09:00,
    which is within the bounds by day and compares after [maxValue]. *)
Lemma committed_endpoint_keeps_time :
  value (selectDate (januaryProps None false None)
           (selectDate (januaryProps None false None)
              (initialState (Some timedValue) (januaryGrid (fun _ => false))) (jan 31))
           (jan 40))
  = Some (mkRange (DateTime (mkCalendarDate persian (julianDay (jan 31))) nineOClock)
                  (DateOnly (jan 31)))
  /\ notAfter (maxValue (januaryProps None false None))
       (dayOf (DateTime (mkCalendarDate persian (julianDay (jan 31))) nineOClock))
  /\ Utils.isInvalid (DateTime (mkCalendarDate persian (julianDay (jan 31))) nineOClock)
       (minValue (januaryProps None false None))
       (maxValue (januaryProps None false None)) = true.
Proof.
  split; [vm_compute; reflexivity|].
  split; [cbn; lia | vm_compute; reflexivity].
Qed.

(** ** The stored available range *)

(** Without an unavailability predicate, or when ranges need not be
    contiguous, no available range is stored by a pick. *)
Lemma availableRange_unconstrained (props : Props) (st : State) (a : CalendarDate) :
  isDateUnavailable props = None \/ allowsNonContiguousRanges props = true ->
  availableRange (setAnchorDate props st (Some a)) = None.
Proof.
  rewrite availableRange_setAnchorDate.
  intros [-> | ->]; [reflexivity | now destruct (isDateUnavailable props)].
Qed.

(** A date is within the range scanned around [a] when no cell from [a] to
    that date is unavailable. *)
Lemma unobstructed_within_available (a b : CalendarDate) (c : Grid.CalendarState) :
  (forall j, Z.min 0 (julianDay b - julianDay a) <= j <= Z.max 0 (julianDay b - julianDay a) ->
     Grid.isCellUnavailable c (addDays a j) = false) ->
  notBefore (option_map DateOnly (nextUnavailableDate a c (-1))) (julianDay b)
  /\ notAfter (option_map DateOnly (nextUnavailableDate a c 1)) (julianDay b).
Proof.
  intros Hfree. split.
  - destruct (nextUnavailableDate_stop a c (-1) ltac:(lia)) as (k & Hk & _ & _ & Hres & _).
    rewrite Hres.
    destruct (Grid.isCellUnavailable c (addDays a (k * -1))) eqn:U;
      cbn [option_map notBefore]; [|exact I].
    unfold dayOf; cbn [toCalendarDate]. rewrite julianDay_addDays.
    destruct (Z_le_gt_dec (julianDay b - julianDay a) (k * -1)) as [Hfar|Hnear]; [|lia].
    rewrite Hfree in U by lia. discriminate.
  - destruct (nextUnavailableDate_stop a c 1 ltac:(lia)) as (k & Hk & _ & _ & Hres & _).
    rewrite Hres.
    destruct (Grid.isCellUnavailable c (addDays a (k * 1))) eqn:U;
      cbn [option_map notAfter]; [|exact I].
    unfold dayOf; cbn [toCalendarDate]. rewrite julianDay_addDays.
    destruct (Z_le_gt_dec (k * 1) (julianDay b - julianDay a)) as [Hfar|Hnear]; [|lia].
    rewrite Hfree in U by lia. discriminate.
Qed.

Lemma updateAvailableRange_invariant (props : Props) (st : State) (date : option CalendarDate) :
  anchorDate st = date ->
  rangeInvariant props (updateAvailableRange props st date).
Proof.
  intros Hanchor. unfold updateAvailableRange, rangeInvariant.
  destruct date as [d|], (isDateUnavailable props) as [f|] eqn:Hf,
    (allowsNonContiguousRanges props) eqn:Hc;
    cbn; (split; [reflexivity|]); intros H; try congruence.
  rewrite Hanchor. repeat split; congruence.
Qed.

Lemma setAnchorDate_invariant (props : Props) (st : State) (date : option CalendarDate) :
  rangeInvariant props (setAnchorDate props st date).
Proof.
  unfold setAnchorDate. destruct date; now apply updateAvailableRange_invariant.
Qed.

Lemma selectDate_invariant (props : Props) (st : State) (date : CalendarDate) :
  rangeInvariant props st -> rangeInvariant props (selectDate props st date).
Proof.
  intros Hinv. unfold selectDate. destruct (isReadOnly props); [exact Hinv|].
  destruct (Utils.previousAvailableDate _ _ _) as [picked|]; [|exact Hinv].
  unfold selectConstrained. destruct (anchorDate st) as [anchor|].
  - destruct (makeRange _ _); [apply setAnchorDate_invariant | exact Hinv].
  - apply setAnchorDate_invariant.
Qed.

Lemma handle_invariant (props : Props) (st : State) (ev : Event) :
  rangeInvariant props st -> rangeInvariant props (handle props st ev).
Proof.
  intros Hinv. destruct ev as [d| |d|d|v|b|c]; cbn [handle].
  - now apply selectDate_invariant.
  - now apply selectDate_invariant.
  - unfold highlightDate. destruct (anchorDate st) eqn:E; [|exact Hinv].
    destruct Hinv as [Href Hrange]. split; [exact Href|]. cbn.
    intros H. destruct (Hrange H) as (_ & Hp & Hc). rewrite E.
    repeat split; [discriminate | exact Hp | exact Hc].
  - apply setAnchorDate_invariant.
  - exact Hinv.
  - exact Hinv.
  - exact Hinv.
Qed.

Lemma syncVisibleRange_invariant (props : Props) (st : State) :
  rangeInvariant props st -> rangeInvariant props (syncVisibleRange props st).
Proof.
  intros Hinv. unfold syncVisibleRange.
  destruct (negb _ || negb _); [|exact Hinv].
  pose proof (updateAvailableRange_invariant props st (anchorDate st) eq_refl) as H.
  exact H.
Qed.

Lemma run_invariant (props : Props) (evs : list Event) :
  forall st, rangeInvariant props st -> rangeInvariant props (run props st evs).
Proof.
  induction evs as [|ev evs IH]; intros st Hinv; [exact Hinv|].
  cbn [run fold_left]. apply IH.
  unfold step. now apply syncVisibleRange_invariant, handle_invariant.
Qed.

Lemma invariant_no_anchor (props : Props) (st : State) :
  rangeInvariant props st ->
  anchorDate st = None ->
  availableRange st = None /\ availableRangeRef st = None.
Proof.
  intros [Href Hrange] Hanchor.
  destruct (availableRange st) as [r|] eqn:E.
  - destruct Hrange as [Ha _]; congruence.
  - split; [reflexivity | exact Href].
Qed.

Lemma isInvalid_without_range (st : State) (d : CalendarDate) :
  availableRangeRef st = None ->
  isInvalid st d = Grid.isInvalid (calendar st) d.
Proof.
  intros H. unfold isInvalid. rewrite H. cbn. apply orb_false_r.
Qed.

(** C10: the stored available range is absent whenever no anchor is active.
    The first render stores none; every operation of the hook, and the
    re-render that follows it, preserves the invariant that the available
    range (state and ref alike) is present only while an anchor date is set,
    an unavailability predicate is supplied and non-contiguous ranges are not
    allowed; so in every state reached from the first render, no anchor means
    no available range.  In particular a cancellation ([setAnchorDate(null)])
    and a commit clear the range, after which [isInvalid] flags a date only
    when the grid's own check does. *)
Theorem availableRange_only_while_anchored (props : Props) :
  (forall previous c, rangeInvariant props (initialState previous c))
  /\ (forall st ev,
        rangeInvariant props st ->
        rangeInvariant props (handle props st ev)
        /\ rangeInvariant props (step props st ev))
  /\ (forall previous c evs,
        rangeInvariant props (run props (initialState previous c) evs)
        /\ (anchorDate (run props (initialState previous c) evs) = None ->
            availableRange (run props (initialState previous c) evs) = None
            /\ availableRangeRef (run props (initialState previous c) evs) = None))
  /\ (forall st,
        anchorDate (setAnchorDate props st None) = None
        /\ availableRange (setAnchorDate props st None) = None
        /\ availableRangeRef (setAnchorDate props st None) = None
        /\ forall d, isInvalid (setAnchorDate props st None) d = Grid.isInvalid (calendar st) d)
  /\ (forall st date anchor picked,
        isReadOnly props = false ->
        anchorDate st = Some anchor ->
        Utils.previousAvailableDate
          (Utils.constrainValue date (min props st) (max props st))
          (DateOnly (start (Grid.visibleRange (calendar st))))
          (isDateUnavailable props) = Some picked ->
        value (selectDate props st date) = Some (committedRange st anchor picked)
        /\ anchorDate (selectDate props st date) = None
        /\ availableRange (selectDate props st date) = None
        /\ availableRangeRef (selectDate props st date) = None
        /\ forall d, isInvalid (selectDate props st date) d = Grid.isInvalid (calendar st) d).
Proof.
  assert (Hinit : forall previous c, rangeInvariant props (initialState previous c)).
  { intros previous c. split; [reflexivity|]. cbn. congruence. }
  split; [exact Hinit|]. split; [|split; [|split]].
  - intros st ev Hinv. split; [now apply handle_invariant|].
    unfold step. now apply syncVisibleRange_invariant, handle_invariant.
  - intros previous c evs.
    pose proof (run_invariant props evs _ (Hinit previous c)) as Hinv.
    split; [exact Hinv|]. intros Hanchor.
    exact (invariant_no_anchor props _ Hinv Hanchor).
  - intros st. repeat split. intros d.
    exact (isInvalid_without_range (setAnchorDate props st None) d eq_refl).
  - intros st date anchor picked Hro Hanchor Hsnap.
    rewrite (selectDate_second props st date anchor picked Hro Hanchor Hsnap).
    repeat split. intros d.
    exact (isInvalid_without_range
             (setAnchorDate props (setValue st (committedRange st anchor picked)) None)
             d eq_refl).
Qed.

(** Scenario B of the specification: with the anchor on 10 January and
    15 January unavailable, 20 January is flagged invalid; once the pick of
    20 January has committed, the available range is cleared and 20 January is
    no longer flagged. *)
Lemma availableRange_only_while_anchored_witness :
  isInvalid (pickedOnce (januaryProps (Some (onDay 15)) false None) None
                        (januaryGrid (onDay 15)) (jan 10)) (jan 20) = true
  /\ availableRange
       (selectDate (januaryProps (Some (onDay 15)) false None)
          (pickedOnce (januaryProps (Some (onDay 15)) false None) None
                      (januaryGrid (onDay 15)) (jan 10))
          (jan 20)) = None
  /\ isInvalid
       (selectDate (januaryProps (Some (onDay 15)) false None)
          (pickedOnce (januaryProps (Some (onDay 15)) false None) None
                      (januaryGrid (onDay 15)) (jan 10))
          (jan 20)) (jan 20) = false.
Proof.
  destruct (availableRange_only_while_anchored (januaryProps (Some (onDay 15)) false None))
    as (_ & _ & _ & _ & Hcommit).
  destruct (Hcommit (pickedOnce (januaryProps (Some (onDay 15)) false None) None
                                (januaryGrid (onDay 15)) (jan 10))
                    (jan 20) (jan 10) (jan 14))
    as (_ & _ & Hrange & _ & Hflag).
  - reflexivity.
  - reflexivity.
  - vm_compute. reflexivity.
  - split; [vm_compute; reflexivity|].
    split; [exact Hrange|]. rewrite Hflag. reflexivity.
Defined.

(** * Further properties of the hook *)

(** ** Normalization *)

(** X1: [makeRange] returns [null] exactly when an endpoint is missing.
    Given both endpoints it returns their date portions, swapped or not, so
    that the start falls on the earlier and the end on the later of the two
    days, whatever time-of-day the endpoints carry; the days of the result do
    not depend on the order of the arguments. *)
Theorem makeRange_orders_by_day (x y : DateValue) :
  (forall s e, makeRange s e = None <-> s = None \/ e = None)
  /\ exists r r',
       makeRange (Some x) (Some y) = Some r
       /\ makeRange (Some y) (Some x) = Some r'
       /\ (r = mkRange (toCalendarDate x) (toCalendarDate y)
           \/ r = mkRange (toCalendarDate y) (toCalendarDate x))
       /\ julianDay (start r) = Z.min (dayOf x) (dayOf y)
       /\ julianDay (end_ r) = Z.max (dayOf x) (dayOf y)
       /\ julianDay (start r') = julianDay (start r)
       /\ julianDay (end_ r') = julianDay (end_ r).
Proof.
  split.
  - intros [s|] [e|]; cbn; split; intros H; try tauto; try discriminate.
    + destruct (compare e s <? 0); discriminate.
    + destruct H; discriminate.
  - assert (Hdays : forall u v : DateValue,
               exists r, makeRange (Some u) (Some v) = Some r
                 /\ (r = mkRange (toCalendarDate u) (toCalendarDate v)
                     \/ r = mkRange (toCalendarDate v) (toCalendarDate u))
                 /\ julianDay (start r) = Z.min (dayOf u) (dayOf v)
                 /\ julianDay (end_ r) = Z.max (dayOf u) (dayOf v)).
    { intros u v. unfold makeRange.
      destruct (compare_days v u) as [Hge Hle].
      destruct (compare v u <? 0) eqn:E; eexists; (split; [reflexivity|]).
      - apply Z.ltb_lt in E. specialize (Hle ltac:(lia)).
        split; [now right|]. unfold dayOf in *. cbn [start end_]. lia.
      - apply Z.ltb_ge in E. specialize (Hge E).
        split; [now left|]. unfold dayOf in *. cbn [start end_]. lia. }
    destruct (Hdays x y) as (r & Hr & Hshape & Hs & He).
    destruct (Hdays y x) as (r' & Hr' & _ & Hs' & He').
    exists r, r'. repeat split; try assumption; lia.
Qed.

(** ** The highlighted range and the selected cells *)

Lemma makeRange_days (x y : DateValue) :
  exists r,
    makeRange (Some x) (Some y) = Some r
    /\ julianDay (start r) = Z.min (dayOf x) (dayOf y)
    /\ julianDay (end_ r) = Z.max (dayOf x) (dayOf y).
Proof.
  unfold makeRange. destruct (compare_days y x) as [Hge Hle].
  destruct (compare y x <? 0) eqn:E; eexists; (split; [reflexivity|]).
  - apply Z.ltb_lt in E. specialize (Hle ltac:(lia)).
    unfold dayOf in *. cbn [start end_]. lia.
  - apply Z.ltb_ge in E. specialize (Hge E).
    unfold dayOf in *. cbn [start end_]. lia.
Qed.

Lemma highlightedRange_anchored (st : State) (a : CalendarDate) :
  anchorDate st = Some a ->
  exists r, highlightedRange st = Some r
    /\ julianDay (start r)
       = Z.min (julianDay a) (julianDay (Grid.focusedDate (calendar st)))
    /\ julianDay (end_ r)
       = Z.max (julianDay a) (julianDay (Grid.focusedDate (calendar st))).
Proof.
  intros Ha. unfold highlightedRange. rewrite Ha.
  apply (makeRange_days (DateOnly a) (DateOnly (Grid.focusedDate (calendar st)))).
Qed.



(** X3: a cell is selected exactly when its day lies within the highlighted
    range and the grid marks it neither disabled nor unavailable; while an
    anchor is active these are the days between the anchor and the focused
    date, both included.  No cell is selected when there is neither an anchor
    nor a committed value. *)
Theorem isSelected_within_highlight (st : State) (date : CalendarDate) :
  (isSelected st date = true <->
     exists r, highlightedRange st = Some r
       /\ julianDay (start r) <= julianDay date <= julianDay (end_ r)
       /\ Grid.isCellDisabled (calendar st) date = false
       /\ Grid.isCellUnavailable (calendar st) date = false)
  /\ (forall a, anchorDate st = Some a ->
        (isSelected st date = true <->
           Z.min (julianDay a) (julianDay (Grid.focusedDate (calendar st))) <= julianDay date
           /\ julianDay date <= Z.max (julianDay a) (julianDay (Grid.focusedDate (calendar st)))
           /\ Grid.isCellDisabled (calendar st) date = false
           /\ Grid.isCellUnavailable (calendar st) date = false))
  /\ (anchorDate st = None -> value st = None -> isSelected st date = false).
Proof.
  assert (Hiff : isSelected st date = true <->
     exists r, highlightedRange st = Some r
       /\ julianDay (start r) <= julianDay date <= julianDay (end_ r)
       /\ Grid.isCellDisabled (calendar st) date = false
       /\ Grid.isCellUnavailable (calendar st) date = false).
  { unfold isSelected. destruct (highlightedRange st) as [r|].
    - rewrite !compare_date. unfold dayOf. cbn [toCalendarDate].
      rewrite !andb_true_iff, !negb_true_iff, Z.geb_le, Z.leb_le.
      split.
      + intros [[[H1 H2] H3] H4]. exists r. repeat split; try assumption; lia.
      + intros (r' & Hr' & [H1 H2] & H3 & H4). injection Hr' as <-.
        repeat split; try assumption; lia.
    - split; [discriminate|]. intros (r & H & _). discriminate. }
  split; [exact Hiff|]. split.
  - intros a Ha. rewrite Hiff.
    destruct (highlightedRange_anchored st a Ha) as (r & Hr & Hs & He).
    split.
    + intros (r' & Hr' & Hin & Hd & Hu). rewrite Hr in Hr'. injection Hr' as <-.
      repeat split; try assumption; lia.
    + intros (H1 & H2 & Hd & Hu). exists r. repeat split; try assumption; lia.
  - intros Ha Hv. unfold isSelected, highlightedRange. now rewrite Ha, Hv.
Qed.

(** With the anchor on 10 January and the focus on 1 January, 5 January is
    selected. *)
Lemma isSelected_within_highlight_witness :
  isSelected (anchoredAt (januaryProps None false None) None
                         (januaryGrid (fun _ => false)) (jan 10)) (jan 5) = true.
Proof.
  apply (proj2 (proj1 (proj2 (isSelected_within_highlight
                                (anchoredAt (januaryProps None false None) None
                                            (januaryGrid (fun _ => false)) (jan 10))
                                (jan 5)))
                  (jan 10) eq_refl)).
  repeat split; try reflexivity; vm_compute; discriminate.
Defined.

(** ** Picks, highlights and cancellation *)

(** X4: every [selectDate] call leaves the grid state, the drag flag and the
    remembered visible range alone, and either changes nothing at all, or
    sets the anchor where there was none and leaves the committed value as it
    was, or clears the active anchor together with the available range (state
    and ref) while committing a value.  So the committed value changes only
    on the pick that ends a selection. *)
Theorem selectDate_toggles_anchor (props : Props) (st : State) (date : CalendarDate) :
  calendar (selectDate props st date) = calendar st
  /\ isDragging (selectDate props st date) = isDragging st
  /\ lastVisibleRange (selectDate props st date) = lastVisibleRange st
  /\ (selectDate props st date = st
      \/ (anchorDate st = None
          /\ anchorDate (selectDate props st date) <> None
          /\ value (selectDate props st date) = value st)
      \/ (anchorDate st <> None
          /\ anchorDate (selectDate props st date) = None
          /\ value (selectDate props st date) <> None
          /\ availableRange (selectDate props st date) = None
          /\ availableRangeRef (selectDate props st date) = None)).
Proof.
  unfold selectDate. destruct (isReadOnly props); [repeat split; now left|].
  destruct (Utils.previousAvailableDate _ _ _) as [picked|]; [|repeat split; now left].
  unfold selectConstrained. destruct (anchorDate st) as [anchor|] eqn:Ha.
  - rewrite makeRange_dates. repeat split. right; right.
    repeat split; discriminate.
  - destruct (setAnchorDate_fields props st picked) as (Hanchor & Hvalue & Hcal).
    unfold setAnchorDate, updateAvailableRange in *.
    destruct (isDateUnavailable props), (allowsNonContiguousRanges props);
      (repeat split; right; left; repeat split; discriminate).
Qed.

Lemma setAnchorDate_none_idle (props : Props) (st : State) :
  anchorDate st = None ->
  availableRange st = None ->
  availableRangeRef st = None ->
  setAnchorDate props st None = st.
Proof.
  destruct st as [v a ref range last drag cal]. cbn. intros -> -> ->. reflexivity.
Qed.

(** X5: cancelling a selection restores the state it started from.  From a
    state with no anchor and no stored available range, a pick followed by
    [setAnchorDate(null)] gives back exactly that state, whether the pick set
    the anchor, was dropped or was ignored by a read-only calendar; setting an
    anchor directly and cancelling does the same. *)
Theorem setAnchorDate_null_undoes_first_pick (props : Props) (st : State) :
  anchorDate st = None ->
  availableRange st = None ->
  availableRangeRef st = None ->
  (forall date, setAnchorDate props (selectDate props st date) None = st)
  /\ (forall a, setAnchorDate props (setAnchorDate props st (Some a)) None = st).
Proof.
  intros Ha Hrange Href.
  assert (Hundo : forall a, setAnchorDate props (setAnchorDate props st (Some a)) None = st).
  { intros a. destruct st as [v anchor ref range last drag cal]. cbn in *. subst.
    unfold setAnchorDate, updateAvailableRange. cbn.
    destruct (isDateUnavailable props), (allowsNonContiguousRanges props); reflexivity. }
  split; [|exact Hundo].
  intros date. unfold selectDate.
  destruct (isReadOnly props); [now apply setAnchorDate_none_idle|].
  destruct (Utils.previousAvailableDate _ _ _) as [picked|];
    [|now apply setAnchorDate_none_idle].
  unfold selectConstrained. rewrite Ha. apply Hundo.
Qed.

(** Picking 10 January with 15 January unavailable stores an anchor and an
    available range; cancelling gives back the first render's state. *)
Lemma setAnchorDate_null_undoes_first_pick_witness :
  setAnchorDate (januaryProps (Some (onDay 15)) false None)
    (selectDate (januaryProps (Some (onDay 15)) false None)
       (initialState None (januaryGrid (onDay 15))) (jan 10))
    None
  = initialState None (januaryGrid (onDay 15)).
Proof.
  apply (proj1 (setAnchorDate_null_undoes_first_pick
                  (januaryProps (Some (onDay 15)) false None)
                  (initialState None (januaryGrid (onDay 15)))
                  eq_refl eq_refl eq_refl)).
Defined.

(** ** The re-scan on a change of the visible range *)

Lemma isEqualDay_refl (d : CalendarDate) : isEqualDay d d = true.
Proof. apply Z.eqb_refl. Qed.

Lemma updateAvailableRange_fields (props : Props) (st : State) (d : option CalendarDate) :
  anchorDate (updateAvailableRange props st d) = anchorDate st
  /\ value (updateAvailableRange props st d) = value st
  /\ calendar (updateAvailableRange props st d) = calendar st
  /\ availableRangeRef (updateAvailableRange props st d)
     = availableRange (updateAvailableRange props st d)
  /\ availableRange (updateAvailableRange props st d) =
     match d, isDateUnavailable props, allowsNonContiguousRanges props with
     | Some a, Some _, false =>
         Some (mkRange (nextUnavailableDate a (calendar st) (-1))
                       (nextUnavailableDate a (calendar st) 1))
     | _, _, _ => None
     end.
Proof.
  unfold updateAvailableRange.
  destruct d, (isDateUnavailable props), (allowsNonContiguousRanges props); repeat split.
Qed.

(** X7: the render-time check re-scans only when the visible range has
    moved.  When both ends of the visible range fall on the days remembered
    from the last render, the state is left as it is.  Otherwise the
    available range (state and ref) is recomputed for the current anchor
    against the new window -- and cleared when there is no anchor, no
    unavailability predicate, or non-contiguous ranges are allowed -- while
    the anchor and the committed value are kept, and the new range is
    remembered, so that a second render changes nothing more. *)
Theorem syncVisibleRange_rescans_once (props : Props) (st : State) :
  syncVisibleRange props (syncVisibleRange props st) = syncVisibleRange props st
  /\ anchorDate (syncVisibleRange props st) = anchorDate st
  /\ value (syncVisibleRange props st) = value st
  /\ (isEqualDay (start (Grid.visibleRange (calendar st))) (start (lastVisibleRange st)) = true ->
      isEqualDay (end_ (Grid.visibleRange (calendar st))) (end_ (lastVisibleRange st)) = true ->
      syncVisibleRange props st = st)
  /\ (isEqualDay (start (Grid.visibleRange (calendar st))) (start (lastVisibleRange st)) = false
      \/ isEqualDay (end_ (Grid.visibleRange (calendar st))) (end_ (lastVisibleRange st)) = false ->
      lastVisibleRange (syncVisibleRange props st) = Grid.visibleRange (calendar st)
      /\ availableRange (syncVisibleRange props st) =
         match anchorDate st, isDateUnavailable props, allowsNonContiguousRanges props with
         | Some a, Some _, false =>
             Some (mkRange (nextUnavailableDate a (calendar st) (-1))
                           (nextUnavailableDate a (calendar st) 1))
         | _, _, _ => None
         end
      /\ availableRangeRef (syncVisibleRange props st)
         = availableRange (syncVisibleRange props st)).
Proof.
  destruct (updateAvailableRange_fields props st (anchorDate st))
    as (Ha & Hv & Hcal & Href & Hrange).
  unfold syncVisibleRange.
  destruct (negb (isEqualDay (start (Grid.visibleRange (calendar st)))
                             (start (lastVisibleRange st)))
            || negb (isEqualDay (end_ (Grid.visibleRange (calendar st)))
                                (end_ (lastVisibleRange st)))) eqn:Hchanged.
  - cbn [calendar lastVisibleRange setLastVisibleRange anchorDate value
         availableRange availableRangeRef].
    rewrite Hcal, !isEqualDay_refl. cbn [negb orb].
    apply orb_true_iff in Hchanged.
    split; [reflexivity|]. split; [exact Ha|]. split; [exact Hv|]. split.
    + intros Hs He. rewrite Hs, He in Hchanged. destruct Hchanged; discriminate.
    + intros _. split; [reflexivity|]. split; [exact Hrange | exact Href].
  - rewrite Hchanged. apply orb_false_iff in Hchanged as [Hs He].
    apply negb_false_iff in Hs, He.
    do 3 (split; [reflexivity|]). split; [reflexivity|].
    intros [Hne|Hne]; congruence.
Qed.

(** With the anchor on 10 January and 15 January unavailable, paging to
    February re-scans against the new window: the range now ends on
    14 January and has no start, and February is remembered as the visible
    range. *)
Lemma syncVisibleRange_rescans_once_witness :
  lastVisibleRange
    (step (januaryProps (Some (onDay 15)) false None)
       (anchoredAt (januaryProps (Some (onDay 15)) false None) None
                   (januaryGrid (onDay 15)) (jan 10))
       (GridChange (pagedTo (januaryGrid (onDay 15)) february)))
  = february
  /\ availableRange
       (step (januaryProps (Some (onDay 15)) false None)
          (anchoredAt (januaryProps (Some (onDay 15)) false None) None
                      (januaryGrid (onDay 15)) (jan 10))
          (GridChange (pagedTo (januaryGrid (onDay 15)) february)))
     = Some (mkRange None (Some (jan 14))).
Proof.
  destruct (proj2 (proj2 (proj2 (proj2
              (syncVisibleRange_rescans_once (januaryProps (Some (onDay 15)) false None)
                 (setCalendar
                    (anchoredAt (januaryProps (Some (onDay 15)) false None) None
                                (januaryGrid (onDay 15)) (jan 10))
                    (pagedTo (januaryGrid (onDay 15)) february))))))
              (or_introl eq_refl))
    as (Hlast & Hrange & _).
  split; [exact Hlast|].
  unfold step, handle. rewrite Hrange. vm_compute. reflexivity.
Defined.

(** ** Runs of events *)

Lemma setAnchorDate_value (props : Props) (st : State) (d : option CalendarDate) :
  value (setAnchorDate props st d) = value st.
Proof.
  unfold setAnchorDate. destruct d as [a|].
  - exact (proj1 (proj2 (updateAvailableRange_fields props
                           (setAnchorDateState st (Some a)) (Some a)))).
  - exact (proj1 (proj2 (updateAvailableRange_fields props
                           (setAnchorDateState st None) None))).
Qed.

Lemma syncVisibleRange_value (props : Props) (st : State) :
  value (syncVisibleRange props st) = value st.
Proof.
  unfold syncVisibleRange. destruct (negb _ || negb _); [|reflexivity].
  exact (proj1 (proj2 (updateAvailableRange_fields props st (anchorDate st)))).
Qed.

(** What one event does to the committed value: a pick that ends a
    selection replaces it by the range it commits, every other event that is
    not a direct [setValue] keeps it. *)
Lemma step_value (props : Props) (st : State) (ev : Event) :
  isSetValue ev = false ->
  value (step props st ev) = value st
  \/ exists anchor picked,
       isReadOnly props = false
       /\ anchorDate st = Some anchor
       /\ value (step props st ev) = Some (committedRange st anchor picked).
Proof.
  assert (Hselect : forall date,
             value (selectDate props st date) = value st
             \/ exists anchor picked,
                  isReadOnly props = false
                  /\ anchorDate st = Some anchor
                  /\ value (selectDate props st date)
                     = Some (committedRange st anchor picked)).
  { intros date. unfold selectDate. destruct (isReadOnly props) eqn:Hro; [now left|].
    destruct (Utils.previousAvailableDate _ _ _) as [picked|]; [|now left].
    destruct (anchorDate st) as [anchor|] eqn:Ha.
    - right. exists anchor, picked.
      rewrite (selectConstrained_commit props st anchor picked Ha).
      repeat split.
    - left. unfold selectConstrained. rewrite Ha. apply setAnchorDate_value. }
  intros Hev. unfold step. rewrite syncVisibleRange_value.
  destruct ev as [d| |d|d|v|b|c]; cbn [handle]; try discriminate.
  - apply Hselect.
  - apply Hselect.
  - left. unfold highlightDate. now destruct (anchorDate st).
  - left. apply setAnchorDate_value.
  - now left.
  - now left.
Qed.

(** X8: a read-only calendar never commits.  Along any sequence of events
    with no direct [setValue] call -- picks, selections of the focused date,
    highlights, anchor changes, drag changes, changes of the grid and the
    re-renders in between -- the committed value stays what it was. *)
Theorem readOnly_run_keeps_value (props : Props) (evs : list Event) :
  isReadOnly props = true ->
  forallb (fun ev => negb (isSetValue ev)) evs = true ->
  forall st, value (run props st evs) = value st.
Proof.
  intros Hro. induction evs as [|ev evs IH]; intros Hevs st; [reflexivity|].
  cbn [forallb] in Hevs. apply andb_true_iff in Hevs as [Hev Hrest].
  apply negb_true_iff in Hev.
  cbn [run fold_left]. fold (run props (step props st ev) evs).
  rewrite (IH Hrest).
  destruct (step_value props st ev Hev) as [Hkeep | (anchor & picked & Hcontra & _)].
  - exact Hkeep.
  - congruence.
Qed.

(** A read-only calendar showing 1-5 January keeps that value through an
    anchor change, a highlight and two picks. *)
Lemma readOnly_run_keeps_value_witness :
  value (run (januaryProps None true None)
           (initialState (Some (mkRange (DateOnly (jan 1)) (DateOnly (jan 5))))
                         (januaryGrid (fun _ => false)))
           [SetAnchorDate (Some (jan 10)); HighlightDate (jan 12);
            SelectDate (jan 20); SelectFocusedDate])
  = Some (mkRange (DateOnly (jan 1)) (DateOnly (jan 5))).
Proof.
  apply (readOnly_run_keeps_value (januaryProps None true None)
           [SetAnchorDate (Some (jan 10)); HighlightDate (jan 12);
            SelectDate (jan 20); SelectFocusedDate]
           eq_refl eq_refl
           (initialState (Some (mkRange (DateOnly (jan 1)) (DateOnly (jan 5))))
                         (januaryGrid (fun _ => false)))).
Defined.

Lemma convertValue_sameCalendarAndTime (n : CalendarDate) (old : DateValue) :
  sameCalendarAndTime old (convertValue n (Some old)).
Proof. destruct old as [d|d t]; split; reflexivity. Qed.

Lemma convertValue_gregorianDate (n : CalendarDate) :
  gregorianDate (convertValue n None).
Proof. split; reflexivity. Qed.

(** X9: the calendar system and the time-of-day of the committed value
    survive any number of selections.  Along any sequence of events with no
    direct [setValue] call, a value present at the start is still present at
    the end and each of its endpoints has kept its calendar system and its
    time-of-day; and with no value at the start, whatever value is found at
    the end has pure Gregorian dates as endpoints. *)
Theorem run_keeps_calendar_and_time (props : Props) (evs : list Event) :
  forallb (fun ev => negb (isSetValue ev)) evs = true ->
  forall st,
    (forall v, value st = Some v ->
       exists w, value (run props st evs) = Some w
         /\ sameCalendarAndTime (start v) (start w)
         /\ sameCalendarAndTime (end_ v) (end_ w))
    /\ (value st = None ->
        forall w, value (run props st evs) = Some w ->
          gregorianDate (start w) /\ gregorianDate (end_ w)).
Proof.
  induction evs as [|ev evs IH]; intros Hevs st.
  - split.
    + intros v Hv. exists v. cbn. repeat split; assumption.
    + intros Hnone w Hw. cbn in Hw. congruence.
  - cbn [forallb] in Hevs. apply andb_true_iff in Hevs as [Hev Hrest].
    apply negb_true_iff in Hev.
    cbn [run fold_left]. fold (run props (step props st ev) evs).
    destruct (IH Hrest (step props st ev)) as [IHsome IHnone].
    destruct (step_value props st ev Hev)
      as [Hkeep | (anchor & picked & _ & _ & Hcommit)].
    + rewrite Hkeep in IHsome, IHnone. split; assumption.
    + split.
      * intros v Hv.
        destruct (IHsome _ Hcommit) as (w & Hw & [Hsc Hst] & [Hec Het]).
        exists w. split; [exact Hw|].
        unfold committedRange in Hsc, Hst, Hec, Het. rewrite Hv in *.
        cbn [option_map start end_] in *.
        destruct (convertValue_sameCalendarAndTime
                    (start (if julianDay picked <? julianDay anchor
                            then mkRange picked anchor else mkRange anchor picked))
                    (start v)) as [H1 H2].
        destruct (convertValue_sameCalendarAndTime
                    (end_ (if julianDay picked <? julianDay anchor
                           then mkRange picked anchor else mkRange anchor picked))
                    (end_ v)) as [H3 H4].
        repeat split; congruence.
      * intros Hnone w Hw.
        destruct (IHsome _ Hcommit) as (w' & Hw' & [Hsc Hst] & [Hec Het]).
        rewrite Hw in Hw'. injection Hw' as <-.
        unfold committedRange in Hsc, Hst, Hec, Het. rewrite Hnone in *.
        cbn [option_map start end_] in *.
        destruct (convertValue_gregorianDate
                    (start (if julianDay picked <? julianDay anchor
                            then mkRange picked anchor else mkRange anchor picked)))
          as [H1 H2].
        destruct (convertValue_gregorianDate
                    (end_ (if julianDay picked <? julianDay anchor
                           then mkRange picked anchor else mkRange anchor picked)))
          as [H3 H4].
        repeat split; congruence.
Qed.

(** A previous value with a time-of-day at 09:00 in another calendar on its
    start keeps both through two selections. *)
Lemma run_keeps_calendar_and_time_witness :
  exists w,
    value (run (januaryProps None false None)
             (initialState (Some timedValue) (januaryGrid (fun _ => false)))
             [SelectDate (jan 10); SelectDate (jan 20); SelectDate (jan 7); SelectDate (jan 3)])
    = Some w
    /\ sameCalendarAndTime (start timedValue) (start w)
    /\ sameCalendarAndTime (end_ timedValue) (end_ w).
Proof.
  apply (proj1 (run_keeps_calendar_and_time (januaryProps None false None)
                  [SelectDate (jan 10); SelectDate (jan 20);
                   SelectDate (jan 7); SelectDate (jan 3)]
                  eq_refl
                  (initialState (Some timedValue) (januaryGrid (fun _ => false))))
           timedValue eq_refl).
Defined.

(** ** The available range and the dates it excludes *)

Lemma notPastEdge_nearer (c : Grid.CalendarState) (dir : Z) (a : CalendarDate) (j k : Z) :
  dir = 1 \/ dir = -1 ->
  j <= k ->
  notPastEdge c dir (addDays a (k * dir)) = true ->
  notPastEdge c dir (addDays a (j * dir)) = true.
Proof.
  unfold notPastEdge. rewrite !compare_date, !julianDay_addDays.
  unfold dayOf; cbn [toCalendarDate].
  intros [-> | ->] Hjk; cbn [Z.ltb Z.compare]; intros H.
  - apply Z.leb_le in H. apply Z.leb_le. lia.
  - apply Z.geb_le in H. apply Z.geb_le. lia.
Qed.

(** An unavailable cell that the scan can reach makes it return a boundary
    before that cell. *)
Lemma scan_finds_obstruction (a : CalendarDate) (c : Grid.CalendarState) (dir k : Z) :
  dir = 1 \/ dir = -1 ->
  1 <= k ->
  Grid.isCellUnavailable c (addDays a (k * dir)) = true ->
  notPastEdge c dir (addDays a (k * dir)) = true ->
  exists k',
    1 <= k' <= k
    /\ nextUnavailableDate a c dir = Some (addDays a ((k' - 1) * dir))
    /\ Grid.isCellUnavailable c (addDays a (k' * dir)) = true
    /\ (forall j, 1 <= j < k' -> Grid.isCellUnavailable c (addDays a (j * dir)) = false).
Proof.
  intros Hdir Hk Hblocked Hedge.
  destruct (nextUnavailableDate_stop a c dir ltac:(lia))
    as (k' & Hk' & Hwalk & Hend & Hres & _).
  assert (Hle : k' <= k).
  { destruct (Z_le_gt_dec k' k) as [H|H]; [exact H|].
    destruct (scanGuard_true _ _ _ (Hwalk k ltac:(lia))) as [_ Hfree]. congruence. }
  assert (Hstop : Grid.isCellUnavailable c (addDays a (k' * dir)) = true).
  { destruct (scanGuard_false _ _ _ Hend) as [Hpast|Hu]; [|exact Hu].
    rewrite (notPastEdge_nearer c dir a k' k Hdir Hle Hedge) in Hpast. discriminate. }
  exists k'. split; [lia|]. split; [now rewrite Hres, Hstop|]. split; [exact Hstop|].
  intros j Hj. apply (scanGuard_true _ _ _ (Hwalk j Hj)).
Qed.

Lemma availableRangeRef_setAnchorDate (props : Props) (st : State) (d : CalendarDate) :
  availableRangeRef (setAnchorDate props st (Some d))
  = availableRange (setAnchorDate props st (Some d)).
Proof.
  unfold setAnchorDate.
  exact (proj1 (proj2 (proj2 (proj2 (updateAvailableRange_fields props
                                       (setAnchorDateState st (Some d)) (Some d)))))).
Qed.

(** X10: once an anchor is set, [isInvalid] flags every date on the far side
    of an obstruction.  With an unavailability predicate and contiguous
    ranges, if a cell [k] days from the anchor in some direction is
    unavailable and has not passed the window edge in that direction, every
    date at or beyond that cell is invalid.  The anchor itself is never
    flagged because of the available range: it is invalid only when the
    grid's own check says so. *)
Theorem isInvalid_beyond_obstruction
    (props : Props) (st : State) (a : CalendarDate) :
  isInvalid (setAnchorDate props st (Some a)) a = Grid.isInvalid (calendar st) a
  /\ forall dir k date,
       isDateUnavailable props <> None ->
       allowsNonContiguousRanges props = false ->
       dir = 1 \/ dir = -1 ->
       1 <= k ->
       Grid.isCellUnavailable (calendar st) (addDays a (k * dir)) = true ->
       notPastEdge (calendar st) dir (addDays a (k * dir)) = true ->
       k <= (julianDay date - julianDay a) * dir ->
       isInvalid (setAnchorDate props st (Some a)) date = true.
Proof.
  split.
  - unfold isInvalid.
    rewrite availableRangeRef_setAnchorDate, availableRange_setAnchorDate.
    destruct (setAnchorDate_fields props st a) as (_ & _ & ->).
    destruct (isDateUnavailable props), (allowsNonContiguousRanges props);
      try (cbn; apply orb_false_r).
    unfold Utils.isInvalid, optStart, optEnd. cbn [start end_].
    destruct (nextUnavailableDate a (calendar st) (-1)) as [s|] eqn:Es;
      destruct (nextUnavailableDate a (calendar st) 1) as [e|] eqn:Ee;
      cbn [option_map]; rewrite ?compare_date; unfold dayOf; cbn [toCalendarDate];
      try (apply nextUnavailableDate_backward in Es);
      try (apply nextUnavailableDate_forward in Ee).
    + replace (julianDay a - julianDay s <? 0) with false by (symmetry; apply Z.ltb_ge; lia).
      replace (julianDay a - julianDay e >? 0) with false
        by (symmetry; rewrite Z.gtb_ltb; apply Z.ltb_ge; lia).
      apply orb_false_r.
    + replace (julianDay a - julianDay s <? 0) with false by (symmetry; apply Z.ltb_ge; lia).
      apply orb_false_r.
    + replace (julianDay a - julianDay e >? 0) with false
        by (symmetry; rewrite Z.gtb_ltb; apply Z.ltb_ge; lia).
      apply orb_false_r.
    + apply orb_false_r.
  - intros dir k date Hpred Hcontig Hdir Hk Hblocked Hedge Hbeyond.
    destruct (scan_finds_obstruction a (calendar st) dir k Hdir Hk Hblocked Hedge)
      as (k' & Hk' & Hres & _).
    unfold isInvalid.
    rewrite availableRangeRef_setAnchorDate, availableRange_setAnchorDate, Hcontig.
    destruct (isDateUnavailable props) as [f|]; [|congruence].
    unfold Utils.isInvalid, optStart, optEnd. cbn [start end_].
    apply orb_true_iff. right.
    destruct Hdir as [-> | ->]; rewrite Hres; cbn [option_map].
    + apply orb_true_iff. right. rewrite compare_date.
      unfold dayOf; cbn [toCalendarDate]. rewrite julianDay_addDays.
      rewrite Z.gtb_ltb. apply Z.ltb_lt. lia.
    + apply orb_true_iff. left. rewrite compare_date.
      unfold dayOf; cbn [toCalendarDate]. rewrite julianDay_addDays.
      apply Z.ltb_lt. lia.
Qed.

(** With the anchor on 10 January and 15 January unavailable, 20 January is
    invalid. *)
Lemma isInvalid_beyond_obstruction_witness :
  isInvalid (setAnchorDate (januaryProps (Some (onDay 15)) false None)
               (initialState None (januaryGrid (onDay 15))) (Some (jan 10)))
            (jan 20) = true.
Proof.
  apply (proj2 (isInvalid_beyond_obstruction (januaryProps (Some (onDay 15)) false None)
                  (initialState None (januaryGrid (onDay 15))) (jan 10))
           1 5 (jan 20)).
  - discriminate.
  - reflexivity.
  - now left.
  - lia.
  - reflexivity.
  - reflexivity.
  - vm_compute. discriminate.
Defined.

(** What a scan returns: a boundary followed by an unavailable cell, with
    only available cells between the anchor and the boundary; or nothing,
    when no cell up to the window edge is unavailable. *)
Lemma scan_boundary (a : CalendarDate) (c : Grid.CalendarState) (dir : Z) :
  dir = 1 \/ dir = -1 ->
  match nextUnavailableDate a c dir with
  | Some x =>
      exists k,
        1 <= k
        /\ x = addDays a ((k - 1) * dir)
        /\ Grid.isCellUnavailable c (addDays a (k * dir)) = true
        /\ (forall j, 1 <= j < k -> Grid.isCellUnavailable c (addDays a (j * dir)) = false)
  | None =>
      forall j, 1 <= j ->
        notPastEdge c dir (addDays a (j * dir)) = true ->
        Grid.isCellUnavailable c (addDays a (j * dir)) = false
  end.
Proof.
  intros Hdir.
  destruct (nextUnavailableDate_stop a c dir ltac:(lia))
    as (k & Hk & Hwalk & Hend & Hres & _).
  rewrite Hres.
  destruct (Grid.isCellUnavailable c (addDays a (k * dir))) eqn:Hstop.
  - exists k. repeat split; try assumption.
    intros j Hj. apply (scanGuard_true _ _ _ (Hwalk j Hj)).
  - intros j Hj Hedge.
    destruct (Z_lt_ge_dec j k) as [Hlt|Hge].
    + apply (scanGuard_true _ _ _ (Hwalk j ltac:(lia))).
    + destruct (scanGuard_false _ _ _ Hend) as [Hpast|Hu]; [|congruence].
      rewrite (notPastEdge_nearer c dir a k j Hdir ltac:(lia) Hedge) in Hpast.
      discriminate.
Qed.

(** X11: the available range stored with an anchor is the run of available
    cells around it.  With an unavailability predicate and contiguous ranges,
    [setAnchorDate(a)] stores a range; a boundary it holds is not on the far
    side of the anchor, every cell between the anchor and the boundary is
    available, and the cell just beyond the boundary is unavailable; a missing
    boundary means that no cell between the anchor and the window edge on
    that side is unavailable. *)
Theorem availableRange_is_available_run (props : Props) (st : State) (a : CalendarDate) :
  isDateUnavailable props <> None ->
  allowsNonContiguousRanges props = false ->
  exists s e,
    availableRange (setAnchorDate props st (Some a)) = Some (mkRange s e)
    /\ (forall x, s = Some x ->
          julianDay x <= julianDay a
          /\ Grid.isCellUnavailable (calendar st) (addDays x (-1)) = true
          /\ forall j, 1 <= j <= julianDay a - julianDay x ->
               Grid.isCellUnavailable (calendar st) (addDays a (- j)) = false)
    /\ (forall y, e = Some y ->
          julianDay a <= julianDay y
          /\ Grid.isCellUnavailable (calendar st) (addDays y 1) = true
          /\ forall j, 1 <= j <= julianDay y - julianDay a ->
               Grid.isCellUnavailable (calendar st) (addDays a j) = false)
    /\ (s = None ->
        forall j, 1 <= j ->
          julianDay (start (Grid.visibleRange (calendar st))) <= julianDay a - j ->
          Grid.isCellUnavailable (calendar st) (addDays a (- j)) = false)
    /\ (e = None ->
        forall j, 1 <= j ->
          julianDay a + j <= julianDay (end_ (Grid.visibleRange (calendar st))) ->
          Grid.isCellUnavailable (calendar st) (addDays a j) = false).
Proof.
  intros Hpred Hcontig.
  exists (nextUnavailableDate a (calendar st) (-1)), (nextUnavailableDate a (calendar st) 1).
  split.
  { rewrite availableRange_setAnchorDate, Hcontig.
    destruct (isDateUnavailable props); [reflexivity | congruence]. }
  pose proof (scan_boundary a (calendar st) (-1) (or_intror eq_refl)) as Hback.
  pose proof (scan_boundary a (calendar st) 1 (or_introl eq_refl)) as Hfwd.
  split; [|split; [|split]].
  - intros x Hx. rewrite Hx in Hback. destruct Hback as (k & Hk & -> & Hstop & Hfree).
    rewrite julianDay_addDays, addDays_addDays.
    replace ((k - 1) * -1 + -1) with (k * -1) by ring.
    split; [lia|]. split; [exact Hstop|].
    intros j Hj. replace (- j) with (j * -1) by ring. apply Hfree. lia.
  - intros y Hy. rewrite Hy in Hfwd. destruct Hfwd as (k & Hk & -> & Hstop & Hfree).
    rewrite julianDay_addDays, addDays_addDays.
    replace ((k - 1) * 1 + 1) with (k * 1) by ring.
    split; [lia|]. split; [exact Hstop|].
    intros j Hj. replace j with (j * 1) by ring. apply Hfree. lia.
  - intros Hs j Hj Hin. rewrite Hs in Hback.
    replace (- j) with (j * -1) by ring. apply Hback; [exact Hj|].
    unfold notPastEdge. cbn [Z.ltb Z.compare]. rewrite compare_date, julianDay_addDays.
    unfold dayOf; cbn [toCalendarDate]. apply Z.geb_le. lia.
  - intros He j Hj Hin. rewrite He in Hfwd.
    replace j with (j * 1) by ring. apply Hfwd; [exact Hj|].
    unfold notPastEdge. cbn [Z.ltb Z.compare]. rewrite compare_date, julianDay_addDays.
    unfold dayOf; cbn [toCalendarDate]. apply Z.leb_le. lia.
Qed.

(** With 5 and 15 January unavailable, the range stored around 10 January
    is 6-14 January. *)
Lemma availableRange_is_available_run_witness :
  exists s e,
    availableRange
      (setAnchorDate
         (januaryProps (Some (fun v => onDay 5 v || onDay 15 v)) false None)
         (initialState None (januaryGrid (fun v => onDay 5 v || onDay 15 v)))
         (Some (jan 10)))
    = Some (mkRange s e)
    /\ s = Some (jan 6) /\ e = Some (jan 14).
Proof.
  destruct (availableRange_is_available_run
              (januaryProps (Some (fun v => onDay 5 v || onDay 15 v)) false None)
              (initialState None (januaryGrid (fun v => onDay 5 v || onDay 15 v)))
              (jan 10))
    as (s & e & Hrange & _).
  - discriminate.
  - reflexivity.
  - exists s, e. split; [exact Hrange|].
    vm_compute in Hrange. injection Hrange as <- <-. split; reflexivity.
Defined.

(** ** Picks against the available range *)

Lemma notBefore_later (bound : option DateValue) (d d' : Z) :
  notBefore bound d -> d <= d' -> notBefore bound d'.
Proof. destruct bound; cbn; intros; [lia | exact I]. Qed.

Lemma notAfter_earlier (bound : option DateValue) (d d' : Z) :
  notAfter bound d -> d' <= d -> notAfter bound d'.
Proof. destruct bound; cbn; intros; [lia | exact I]. Qed.

(** A date above the lower bound and after the upper bound is lowered to the
    upper bound. *)
Lemma constrainValue_lowered (date hi : CalendarDate) (lower : option DateValue) :
  notBefore lower (julianDay date) ->
  julianDay hi < julianDay date ->
  Utils.constrainValue date lower (Some (DateOnly hi)) = hi.
Proof.
  intros Hlo Hhi. unfold Utils.constrainValue.
  assert (Hkeep : match lower with
                  | Some m => if compare (DateOnly date) (DateOnly (toCalendarDate m)) >=? 0
                              then date else toCalendarDate m
                  | None => date
                  end = date).
  { destruct lower as [lo|]; [|reflexivity]. cbn [notBefore] in Hlo.
    rewrite compare_date.
    replace (julianDay date - dayOf (DateOnly (toCalendarDate lo)) >=? 0) with true;
      [reflexivity|].
    symmetry. apply Z.geb_le. unfold dayOf in *. cbn [toCalendarDate]. lia. }
  rewrite Hkeep, compare_date. cbn [toCalendarDate].
  replace (julianDay date - dayOf (DateOnly hi) <=? 0) with false; [reflexivity|].
  symmetry. apply Z.leb_gt. unfold dayOf. cbn [toCalendarDate]. lia.
Qed.

(** The earlier of a caller's upper bound and a boundary that lies strictly
    before it is the boundary. *)
Lemma minDate_boundary (upper : option DateValue) (e : CalendarDate) :
  match upper with Some m => julianDay e < dayOf m | None => True end ->
  minDate upper (Some (DateOnly e)) = Some (DateOnly e).
Proof.
  destruct upper as [m|]; [|reflexivity]. intros Hlt. unfold minDate.
  destruct (compare_days m (DateOnly e)) as [_ Hle].
  destruct (compare m (DateOnly e) <=? 0) eqn:E; [|reflexivity].
  apply Z.leb_le in E. specialize (Hle E). unfold dayOf in *. cbn [toCalendarDate] in Hle. lia.
Qed.

(** X12: a second pick beyond an obstruction selects up to the obstruction.
    Let the anchor [a] be available, within the caller's lower bound and not
    before the window start, let the grid and the caller use the same
    unavailability predicate, and let the forward scan around [a] return the
    boundary [e], strictly before [maxValue].  Then picking any date after
    [e] commits the range from [a] to [e] (each endpoint converted against the
    previous value) and clears the anchor. *)
Theorem selectDate_beyond_obstruction
    (props : Props) (st : State) (a b e : CalendarDate) (unavailable : DateValue -> bool) :
  isReadOnly props = false ->
  isDateUnavailable props = Some unavailable ->
  allowsNonContiguousRanges props = false ->
  (forall d, Grid.isCellUnavailable (calendar st) d = unavailable (DateOnly d)) ->
  unavailable (DateOnly a) = false ->
  julianDay (start (Grid.visibleRange (calendar st))) <= julianDay a ->
  notBefore (minValue props) (julianDay a) ->
  nextUnavailableDate a (calendar st) 1 = Some e ->
  match maxValue props with Some m => julianDay e < dayOf m | None => True end ->
  julianDay e < julianDay b ->
  value (selectDate props (setAnchorDate props st (Some a)) b)
  = Some (committedRange st a e)
  /\ anchorDate (selectDate props (setAnchorDate props st (Some a)) b) = None
  /\ dayOf (start (committedRange st a e)) = julianDay a
  /\ dayOf (end_ (committedRange st a e)) = julianDay e.
Proof.
  intros Hro Hpred Hcontig Hsame Havail Hwin Hlo Hscan Hmax Hbeyond.
  pose proof (nextUnavailableDate_forward _ _ _ Hscan) as Hae.
  destruct (setAnchorDate_fields props st a) as (Hanchor1 & Hvalue1 & Hcal1).
  set (st1 := setAnchorDate props st (Some a)) in *.
  assert (Hrange : availableRange st1
                   = Some (mkRange (nextUnavailableDate a (calendar st) (-1)) (Some e))).
  { unfold st1. now rewrite availableRange_setAnchorDate, Hpred, Hcontig, Hscan. }
  assert (Hmax1 : max props st1 = Some (DateOnly e)).
  { unfold max. rewrite Hrange. cbn [optEnd end_ option_map].
    now apply minDate_boundary. }
  assert (Hmin1 : notBefore (min props st1) (julianDay b)).
  { apply min_setAnchorDate; [|lia]. apply (notBefore_later _ _ _ Hlo). lia. }
  assert (Hclamp : Utils.constrainValue b (min props st1) (max props st1) = e).
  { rewrite Hmax1. now apply constrainValue_lowered. }
  assert (He : unavailable (DateOnly e) = false).
  { pose proof (scan_boundary a (calendar st) 1 (or_introl eq_refl)) as Hb.
    rewrite Hscan in Hb. destruct Hb as (k & Hk & -> & _ & Hfree).
    destruct (Z.eq_dec k 1) as [-> | Hne].
    - cbn. now rewrite addDays_zero.
    - rewrite <- Hsame. apply Hfree. lia. }
  assert (Hsnap : Utils.previousAvailableDate
                    (Utils.constrainValue b (min props st1) (max props st1))
                    (DateOnly (start (Grid.visibleRange (calendar st1))))
                    (isDateUnavailable props) = Some e).
  { rewrite Hclamp, Hcal1, Hpred. apply previousAvailableDate_keeps.
    split; [exact He|]. unfold dayOf; cbn [toCalendarDate]. lia. }
  rewrite (selectDate_second props st1 b a e Hro Hanchor1 Hsnap).
  destruct (commit_fields props st1 (committedRange st1 a e)) as (Hv & Ha & _).
  destruct (committedRange_days st a e) as [Hs Hend].
  assert (Hsame_range : committedRange st1 a e = committedRange st a e).
  { unfold committedRange. now rewrite Hvalue1. }
  rewrite Hv, Ha, Hsame_range. repeat split; lia.
Qed.

(** Scenario B of the specification, reached through the theorem: anchor on
    10 January, 15 January unavailable, the pick of 20 January commits
    10-14 January. *)
Lemma selectDate_beyond_obstruction_witness :
  value (selectDate (januaryProps (Some (onDay 15)) false None)
           (setAnchorDate (januaryProps (Some (onDay 15)) false None)
              (initialState None (januaryGrid (onDay 15))) (Some (jan 10)))
           (jan 20))
  = Some (mkRange (DateOnly (jan 10)) (DateOnly (jan 14))).
Proof.
  refine (proj1 (selectDate_beyond_obstruction
                   (januaryProps (Some (onDay 15)) false None)
                   (initialState None (januaryGrid (onDay 15)))
                   (jan 10) (jan 20) (jan 14) (onDay 15)
                   _ _ _ _ _ _ _ _ _ _)).
  - reflexivity.
  - reflexivity.
  - reflexivity.
  - intros d. reflexivity.
  - reflexivity.
  - vm_compute. discriminate.
  - vm_compute. discriminate.
  - vm_compute. reflexivity.
  - vm_compute. reflexivity.
  - vm_compute. reflexivity.
Defined.

(** X13: two picks with nothing unavailable between them select exactly
    their range.  When the calendar is not read-only, from a state with no
    anchor and no stored available range, for dates [a] and [b] within the
    caller's bounds and kept by the availability snap, if no cell from [a] to
    [b] is unavailable then [selectDate(a); selectDate(b)] commits the range
    spanning the days of [a] and [b] and clears the anchor, whatever
    obstructions lie elsewhere in the window. *)
Theorem selectDate_twice_unobstructed (props : Props) (st : State) (a b : CalendarDate) :
  isReadOnly props = false ->
  anchorDate st = None ->
  availableRange st = None ->
  notBefore (minValue props) (julianDay a) ->
  notAfter (maxValue props) (julianDay a) ->
  notBefore (minValue props) (julianDay b) ->
  notAfter (maxValue props) (julianDay b) ->
  keptBySnap props st a ->
  keptBySnap props st b ->
  (forall j, Z.min 0 (julianDay b - julianDay a) <= j <= Z.max 0 (julianDay b - julianDay a) ->
     Grid.isCellUnavailable (calendar st) (addDays a j) = false) ->
  value (selectDate props (selectDate props st a) b) = Some (committedRange st a b)
  /\ anchorDate (selectDate props (selectDate props st a) b) = None
  /\ dayOf (start (committedRange st a b)) = Z.min (julianDay a) (julianDay b)
  /\ dayOf (end_ (committedRange st a b)) = Z.max (julianDay a) (julianDay b).
Proof.
  intros Hro Hanchor Hrange Halo Hahi Hblo Hbhi Hakept Hbkept Hfree.
  destruct (unobstructed_within_available a b (calendar st) Hfree) as [Hs He].
  destruct (selectDate_twice_kept props st a b) as [_ Htwice]; auto.
  - now rewrite min_without_range.
  - now rewrite max_without_range.
  - unfold min. apply maxDate_notBefore. split; [exact Hblo|].
    rewrite availableRange_setAnchorDate.
    destruct (isDateUnavailable props), (allowsNonContiguousRanges props);
      cbn; try exact I. exact Hs.
  - unfold max. apply minDate_notAfter. split; [exact Hbhi|].
    rewrite availableRange_setAnchorDate.
    destruct (isDateUnavailable props), (allowsNonContiguousRanges props);
      cbn; try exact I. exact He.
  - rewrite Htwice.
    destruct (commit_fields props (setAnchorDate props st (Some a)) (committedRange st a b))
      as (Hv & Ha & _).
    destruct (committedRange_days st a b) as [Hd1 Hd2].
    repeat split; assumption.
Qed.

(** With 15 January unavailable, picking 10 January and then 3 January
    commits 3-10 January. *)
Lemma selectDate_twice_unobstructed_witness :
  value (selectDate (januaryProps (Some (onDay 15)) false None)
           (selectDate (januaryProps (Some (onDay 15)) false None)
              (initialState None (januaryGrid (onDay 15))) (jan 10))
           (jan 3))
  = Some (mkRange (DateOnly (jan 3)) (DateOnly (jan 10))).
Proof.
  refine (proj1 (selectDate_twice_unobstructed
                   (januaryProps (Some (onDay 15)) false None)
                   (initialState None (januaryGrid (onDay 15)))
                   (jan 10) (jan 3) _ _ _ _ _ _ _ _ _ _)).
  - reflexivity.
  - reflexivity.
  - reflexivity.
  - vm_compute. discriminate.
  - vm_compute. discriminate.
  - vm_compute. discriminate.
  - vm_compute. discriminate.
  - split; [reflexivity | vm_compute; discriminate].
  - split; [reflexivity | vm_compute; discriminate].
  - intros j Hj. change (onDay 15 (DateOnly (addDays (jan 10) j)) = false).
    unfold onDay, dayOf. cbn [toCalendarDate]. rewrite julianDay_addDays.
    apply Z.eqb_neq.
    change (julianDay (jan 10)) with 2460320 in *.
    change (julianDay (jan 3)) with 2460313 in *.
    change (julianDay (jan 15)) with 2460325. lia.
Defined.

(** A date below the lower bound is raised to it, when the lower bound is
    not after the upper bound. *)
Lemma constrainValue_raised (date lo : CalendarDate) (upper : option DateValue) :
  julianDay date < julianDay lo ->
  notAfter upper (julianDay lo) ->
  Utils.constrainValue date (Some (DateOnly lo)) upper = lo.
Proof.
  intros Hlo Hhi. unfold Utils.constrainValue. rewrite compare_date. cbn [toCalendarDate].
  replace (julianDay date - dayOf (DateOnly lo) >=? 0) with false.
  - destruct upper as [hi|]; [|reflexivity]. cbn [notAfter] in Hhi.
    rewrite compare_date.
    replace (julianDay lo - dayOf (DateOnly (toCalendarDate hi)) <=? 0) with true;
      [reflexivity|].
    symmetry. apply Z.leb_le. unfold dayOf in *. cbn [toCalendarDate]. lia.
  - symmetry. rewrite Z.geb_leb. apply Z.leb_gt. unfold dayOf. cbn [toCalendarDate]. lia.
Qed.

(** The later of a caller's lower bound and a boundary that lies strictly
    after it is the boundary. *)
Lemma maxDate_boundary (lower : option DateValue) (s : CalendarDate) :
  match lower with Some m => dayOf m < julianDay s | None => True end ->
  maxDate lower (Some (DateOnly s)) = Some (DateOnly s).
Proof.
  destruct lower as [m|]; [|reflexivity]. intros Hlt. unfold maxDate.
  destruct (compare_days m (DateOnly s)) as [Hge _].
  destruct (compare m (DateOnly s) >=? 0) eqn:E; [|reflexivity].
  apply Z.geb_le in E. specialize (Hge E). unfold dayOf in *. cbn [toCalendarDate] in Hge. lia.
Qed.

(** X14: a second pick before an obstruction that lies behind the anchor
    selects back to the obstruction.  Let the anchor [a] be available, within
    the caller's upper bound and not before the window start, let the grid
    and the caller use the same unavailability predicate, and let the
    backward scan around [a] return the boundary [s], strictly after
    [minValue].  Then picking any date before [s] commits the range from [s]
    to [a] (each endpoint converted against the previous value) and clears
    the anchor. *)
Theorem selectDate_before_obstruction
    (props : Props) (st : State) (a b s : CalendarDate) (unavailable : DateValue -> bool) :
  isReadOnly props = false ->
  isDateUnavailable props = Some unavailable ->
  allowsNonContiguousRanges props = false ->
  (forall d, Grid.isCellUnavailable (calendar st) d = unavailable (DateOnly d)) ->
  unavailable (DateOnly a) = false ->
  julianDay (start (Grid.visibleRange (calendar st))) <= julianDay a ->
  notAfter (maxValue props) (julianDay a) ->
  nextUnavailableDate a (calendar st) (-1) = Some s ->
  match minValue props with Some m => dayOf m < julianDay s | None => True end ->
  julianDay b < julianDay s ->
  value (selectDate props (setAnchorDate props st (Some a)) b)
  = Some (committedRange st a s)
  /\ anchorDate (selectDate props (setAnchorDate props st (Some a)) b) = None
  /\ dayOf (start (committedRange st a s)) = julianDay s
  /\ dayOf (end_ (committedRange st a s)) = julianDay a.
Proof.
  intros Hro Hpred Hcontig Hsame Havail Hwin Hhi Hscan Hmin Hbefore.
  pose proof (nextUnavailableDate_backward _ _ _ Hscan) as Hsa.
  destruct (setAnchorDate_fields props st a) as (Hanchor1 & Hvalue1 & Hcal1).
  set (st1 := setAnchorDate props st (Some a)) in *.
  assert (Hrange : availableRange st1
                   = Some (mkRange (Some s) (nextUnavailableDate a (calendar st) 1))).
  { unfold st1. now rewrite availableRange_setAnchorDate, Hpred, Hcontig, Hscan. }
  assert (Hmin1 : min props st1 = Some (DateOnly s)).
  { unfold min. rewrite Hrange. cbn [optStart start option_map].
    now apply maxDate_boundary. }
  assert (Hmax1 : notAfter (max props st1) (julianDay s)).
  { apply max_setAnchorDate; [|lia]. apply (notAfter_earlier _ _ _ Hhi). lia. }
  assert (Hclamp : Utils.constrainValue b (min props st1) (max props st1) = s).
  { rewrite Hmin1. now apply constrainValue_raised. }
  assert (Hs : unavailable (DateOnly s) = false
               /\ julianDay (start (Grid.visibleRange (calendar st))) <= julianDay s).
  { destruct (nextUnavailableDate_stop a (calendar st) (-1) ltac:(lia))
      as (k & Hk & Hwalk & _ & Hres & _).
    rewrite Hres in Hscan.
    destruct (Grid.isCellUnavailable (calendar st) (addDays a (k * -1))); [|discriminate].
    injection Hscan as <-.
    destruct (Z.eq_dec k 1) as [-> | Hne].
    - change ((1 - 1) * -1) with 0. rewrite addDays_zero.
      split; [exact Havail | exact Hwin].
    - destruct (scanGuard_true _ _ _ (Hwalk (k - 1) ltac:(lia))) as [Hedge Hfree].
      split; [now rewrite <- Hsame|].
      unfold notPastEdge in Hedge. cbn [Z.ltb Z.compare] in Hedge.
      rewrite compare_date in Hedge. apply Z.geb_le in Hedge.
      unfold dayOf in Hedge; cbn [toCalendarDate] in Hedge. lia. }
  assert (Hsnap : Utils.previousAvailableDate
                    (Utils.constrainValue b (min props st1) (max props st1))
                    (DateOnly (start (Grid.visibleRange (calendar st1))))
                    (isDateUnavailable props) = Some s).
  { rewrite Hclamp, Hcal1, Hpred. apply previousAvailableDate_keeps.
    split; [apply Hs|]. unfold dayOf; cbn [toCalendarDate]. apply Hs. }
  rewrite (selectDate_second props st1 b a s Hro Hanchor1 Hsnap).
  destruct (commit_fields props st1 (committedRange st1 a s)) as (Hv & Ha & _).
  destruct (committedRange_days st a s) as [Hd1 Hd2].
  assert (Hsame_range : committedRange st1 a s = committedRange st a s).
  { unfold committedRange. now rewrite Hvalue1. }
  rewrite Hv, Ha, Hsame_range. repeat split; lia.
Qed.

(** Anchor on 10 January, 5 January unavailable: the pick of 2 January
    commits 6-10 January. *)
Lemma selectDate_before_obstruction_witness :
  value (selectDate (januaryProps (Some (onDay 5)) false None)
           (setAnchorDate (januaryProps (Some (onDay 5)) false None)
              (initialState None (januaryGrid (onDay 5))) (Some (jan 10)))
           (jan 2))
  = Some (mkRange (DateOnly (jan 6)) (DateOnly (jan 10))).
Proof.
  refine (proj1 (selectDate_before_obstruction
                   (januaryProps (Some (onDay 5)) false None)
                   (initialState None (januaryGrid (onDay 5)))
                   (jan 10) (jan 2) (jan 6) (onDay 5)
                   _ _ _ _ _ _ _ _ _ _)).
  - reflexivity.
  - reflexivity.
  - reflexivity.
  - intros d. reflexivity.
  - reflexivity.
  - vm_compute. discriminate.
  - vm_compute. discriminate.
  - vm_compute. reflexivity.
  - vm_compute. reflexivity.
  - vm_compute. reflexivity.
Defined.
